(** * Accounts, sessions and authorization of the content site

    A shallow embedding of the server side of the site: the in-memory
    storage backend ([MemStorage], the backend the server instantiates;
    the relational one is not modelled), the authentication set-up
    ([setupAuth]: password hashing, the local strategy, the register,
    login, logout and current-user endpoints) and the REST routes with
    their middleware ([isAuthenticated], [isAdmin], [validateRequest]).

    JavaScript objects are finite maps from property names to values,
    so that spread, rest-destructuring and [delete] are map union,
    removal and removal again.  The [Map<number, _>] tables of the
    storage are association lists in insertion order.  Strings are
    kept in their UTF-8 encoding.  An endpoint is the run of one
    request from start to end; the registration handler, which waits
    for the digest between its username check and the insertion, is
    also given as the two parts that other requests can come between.
    Third-party code (bcryptjs, the zod schemas derived from the
    tables) is an interface the development is parametric in; what
    passport does around the callbacks of the source (reading the
    credentials, session serialization) is written out where an
    endpoint depends on it. *)

From stdpp Require Import gmap strings list fin_maps.
From Stdlib Require Import ZArith Lia.

Local Open Scope Z_scope.
Local Open Scope string_scope.

(** ** Values *)

(** The values a property can hold.  Numbers are integers (every
    number the server itself produces is a counter value); [JDate]
    carries the instant of a [new Date()]; [JArr] is an array and
    [JObj] a nested object.  A property that is absent reads as
    [undefined]: a property read has type [option jsval] and [None]
    stands for [undefined]. *)
#[local] Unset Elimination Schemes.
Inductive jsval : Type :=
| JNull
| JBool (b : bool)
| JNum (n : Z)
| JStr (s : string)
| JDate (t : Z)
| JArr (l : list jsval)
| JObj (fields : list (string * jsval)).
#[local] Set Elimination Schemes.

Abbreviation obj := (gmap string jsval).

(** Truthiness, as [||] and [!] see it. *)
Definition truthy (v : jsval) : bool :=
  match v with
  | JNull => false
  | JBool b => b
  | JNum n => negb (Z.eqb n 0)
  | JStr s => negb (String.eqb s "")
  | JDate _ => true
  | JArr _ => true
  | JObj _ => true
  end.

(** [a || b] where [a] is a property read. *)
Definition js_or (a : option jsval) (b : jsval) : jsval :=
  match a with
  | Some v => if truthy v then v else b
  | None => b
  end.

(** [a === b] on values.  Primitives are compared by value.  Dates,
    arrays and nested objects are compared by identity; the model keeps
    no identities and answers [false], which is what two objects of
    different origin give. *)
Definition strict_eq (a b : jsval) : bool :=
  match a, b with
  | JNull, JNull => true
  | JBool x, JBool y => Bool.eqb x y
  | JNum x, JNum y => Z.eqb x y
  | JStr x, JStr y => String.eqb x y
  | _, _ => false
  end.

(** [a === b] on property reads: [undefined === undefined] holds. *)
Definition strict_eq_opt (a b : option jsval) : bool :=
  match a, b with
  | None, None => true
  | Some x, Some y => strict_eq x y
  | _, _ => false
  end.

(** [{ ...o, k: v }] where [v] is itself a property read: a property
    set to [undefined] reads like an absent one. *)
Definition set_prop (k : string) (v : option jsval) (o : obj) : obj :=
  match v with
  | Some v => <[k := v]> o
  | None => delete k o
  end.

(** The outcome of a call that may throw (or of a promise that may
    reject). *)
Inductive Result (A : Type) : Type :=
| Ok (a : A)
| Err.
Arguments Ok {A} a.
Arguments Err {A}.

(** ** [Map<number, V>] *)

(** A JavaScript [Map] keeps its entries in insertion order; [set] on a
    present key replaces the value in place, on a new key it appends. *)
Module JsMap.
Section Ops.
Context {V : Type}.

Definition t := list (Z * V).

Fixpoint get (k : Z) (m : list (Z * V)) : option V :=
  match m with
  | [] => None
  | (k', v) :: m' => if Z.eqb k k' then Some v else get k m'
  end.

Fixpoint set (k : Z) (v : V) (m : list (Z * V)) : list (Z * V) :=
  match m with
  | [] => [(k, v)]
  | (k', v') :: m' =>
      if Z.eqb k k' then (k, v) :: m' else (k', v') :: set k v m'
  end.

(** [Map.prototype.delete]: the map without the key, and whether the
    key was there. *)
Fixpoint remove (k : Z) (m : list (Z * V)) : list (Z * V) :=
  match m with
  | [] => []
  | (k', v') :: m' =>
      if Z.eqb k k' then m' else (k', v') :: remove k m'
  end.

Definition has (k : Z) (m : list (Z * V)) : bool :=
  match get k m with Some _ => true | None => false end.

Definition keys (m : list (Z * V)) : list Z := map fst m.
Definition values (m : list (Z * V)) : list V := map snd m.
End Ops.
End JsMap.

(** ** The in-memory storage *)

Record MemStorage : Type := mkMemStorage {
  users : list (Z * obj);
  newsItems : list (Z * obj);
  projectItems : list (Z * obj);
  userId : Z;
  newsId : Z;
  projectId : Z
}.

(** The constructor. *)
Definition new_MemStorage : MemStorage :=
  {| users := []; newsItems := []; projectItems := [];
     userId := 1; newsId := 1; projectId := 1 |}.

(** The tables are only ever keyed by counter values, so a lookup by a
    value that is not a number finds nothing: [as_key] is the number a
    property read can be used as. *)
Definition as_key (k : option jsval) : option Z :=
  match k with
  | Some (JNum n) => Some n
  | _ => None
  end.

Definition getUser (st : MemStorage) (id : Z) : option obj :=
  JsMap.get id (users st).

(** [Array.from(this.users.values()).find(user => user.username === username)] *)
Definition getUserByUsername (st : MemStorage) (username : option jsval)
  : option obj :=
  List.find (fun user => strict_eq_opt (user !! "username") username)
            (JsMap.values (users st)).

Definition getAllUsers (st : MemStorage) : list obj :=
  JsMap.values (users st).

(** [createUser]: the counter is read and incremented, [role] is taken
    out of the candidate and put back, defaulted to ["user"]. *)
Definition createUser (st : MemStorage) (insertUser : obj) (now : Z)
  : MemStorage * obj :=
  let id := userId st in
  let role := insertUser !! "role" in
  let userData := delete "role" insertUser in
  let user : obj :=
    <["createdAt" := JDate now]>
      (<["role" := js_or role (JStr "user")]>
         (<["bio" := JNull]>
            (<["avatar" := JNull]>
               (<["id" := JNum id]> userData)))) in
  ({| users := JsMap.set id user (users st);
      newsItems := newsItems st;
      projectItems := projectItems st;
      userId := id + 1;
      newsId := newsId st;
      projectId := projectId st |}, user).

(** [updateUserProfile]: [{ ...user, ...profile }] stored under the
    same key. *)
Definition updateUserProfile (st : MemStorage) (id : Z) (profile : obj)
  : MemStorage * option obj :=
  match JsMap.get id (users st) with
  | None => (st, None)
  | Some user =>
      let updatedUser : obj := profile ∪ user in
      ({| users := JsMap.set id updatedUser (users st);
          newsItems := newsItems st;
          projectItems := projectItems st;
          userId := userId st;
          newsId := newsId st;
          projectId := projectId st |}, Some updatedUser)
  end.

Definition getAllNews (st : MemStorage) : list obj :=
  JsMap.values (newsItems st).

Definition getNewsById (st : MemStorage) (id : Z) : option obj :=
  JsMap.get id (newsItems st).

Definition createNews (st : MemStorage) (newsItem : obj) (now : Z)
  : MemStorage * obj :=
  let id := newsId st in
  let news : obj :=
    <["updatedAt" := JDate now]>
      (<["createdAt" := JDate now]>
         (<["files" := js_or (newsItem !! "files") (JArr [])]>
            (<["id" := JNum id]> newsItem))) in
  ({| users := users st;
      newsItems := JsMap.set id news (newsItems st);
      projectItems := projectItems st;
      userId := userId st;
      newsId := id + 1;
      projectId := projectId st |}, news).

Definition updateNews (st : MemStorage) (id : Z) (newsUpdate : obj) (now : Z)
  : MemStorage * option obj :=
  match JsMap.get id (newsItems st) with
  | None => (st, None)
  | Some news =>
      let updatedNews : obj :=
        <["updatedAt" := JDate now]> (newsUpdate ∪ news) in
      ({| users := users st;
          newsItems := JsMap.set id updatedNews (newsItems st);
          projectItems := projectItems st;
          userId := userId st;
          newsId := newsId st;
          projectId := projectId st |}, Some updatedNews)
  end.

Definition deleteNews (st : MemStorage) (id : Z) : MemStorage * bool :=
  ({| users := users st;
      newsItems := JsMap.remove id (newsItems st);
      projectItems := projectItems st;
      userId := userId st;
      newsId := newsId st;
      projectId := projectId st |}, JsMap.has id (newsItems st)).

Definition getAllProjects (st : MemStorage) : list obj :=
  JsMap.values (projectItems st).

Definition getProjectById (st : MemStorage) (id : Z) : option obj :=
  JsMap.get id (projectItems st).

Definition createProject (st : MemStorage) (projectItem : obj) (now : Z)
  : MemStorage * obj :=
  let id := projectId st in
  let project : obj :=
    <["files" := js_or (projectItem !! "files") (JArr [])]>
      (<["url" := js_or (projectItem !! "url") (JStr "")]>
         (<["imageUrl" := js_or (projectItem !! "imageUrl") (JStr "")]>
            (<["updatedAt" := JDate now]>
               (<["createdAt" := JDate now]>
                  (<["id" := JNum id]> projectItem))))) in
  ({| users := users st;
      newsItems := newsItems st;
      projectItems := JsMap.set id project (projectItems st);
      userId := userId st;
      newsId := newsId st;
      projectId := id + 1 |}, project).

Definition updateProject (st : MemStorage) (id : Z) (projectUpdate : obj)
  (now : Z) : MemStorage * option obj :=
  match JsMap.get id (projectItems st) with
  | None => (st, None)
  | Some project =>
      let updatedProject : obj :=
        <["updatedAt" := JDate now]> (projectUpdate ∪ project) in
      ({| users := users st;
          newsItems := newsItems st;
          projectItems := JsMap.set id updatedProject (projectItems st);
          userId := userId st;
          newsId := newsId st;
          projectId := projectId st |}, Some updatedProject)
  end.

Definition deleteProject (st : MemStorage) (id : Z) : MemStorage * bool :=
  ({| users := users st;
      newsItems := newsItems st;
      projectItems := JsMap.remove id (projectItems st);
      userId := userId st;
      newsId := newsId st;
      projectId := projectId st |}, JsMap.has id (projectItems st)).

(** ** The environment of a request *)

(** What a request meets that the server does not decide: the instant
    of [new Date()], the salt that [bcrypt.genSalt(10)] draws, and what
    multer left in [req.files] ([Err] when multer fails, [None] when
    the request carried no files). *)
Record Env : Type := mkEnv {
  now : Z;
  salt : string;
  uploaded : Result (option (list string))
}.

(** A request as a handler sees it: [req.user] as the session
    middleware set it ([None]: not authenticated), the parsed JSON
    body, the parsed query string, and [parseInt(req.params.id)]
    ([None] for [NaN]). *)
Record Request : Type := mkRequest {
  req_user : option obj;
  body : obj;
  query : obj;
  params_id : option Z
}.

Inductive Payload : Type :=
| PJson (o : obj)          (* res.json(object) *)
| PList (l : list obj)     (* res.json(array of objects) *)
| PNone.                   (* no JSON body *)

Record Response : Type := mkResponse {
  status : Z;
  payload : Payload
}.

(** [res.status(code).json({ message })] *)
Definition message (code : Z) (text : string) : Response :=
  {| status := code; payload := PJson {[ "message" := JStr text ]} |}.

(** [next(err)]: the framework's error response. *)
Definition next_error : Response :=
  {| status := 500; payload := PNone |}.

(** [const { password, ...safeUser } = user], and equally
    [safeUser = { ...user }; delete safeUser.password]. *)
Definition safeUser (user : obj) : obj := delete "password" user.

(** A zod schema: whether [parse] returns, and the [errors] of the
    [ZodError] it throws otherwise. *)
Record ZodSchema : Type := mkZodSchema {
  zod_accepts : obj -> bool;
  zod_errors : obj -> jsval
}.

(** The third-party code the server calls.  One thing is taken from
    bcryptjs: both functions answer [Illegal arguments] unless their
    two arguments are strings.  Nothing else is assumed. *)
Class External : Type := {
  (** [bcrypt.hash(password, salt)] *)
  bcrypt_hash : option jsval -> string -> Result string;
  (** [bcrypt.compare(supplied, stored)] *)
  bcrypt_compare : jsval -> option jsval -> Result bool;
  (** [createInsertSchema(news).pick(...)] *)
  insertNewsSchema : ZodSchema;
  (** [createInsertSchema(projects).pick(...)] *)
  insertProjectSchema : ZodSchema;
  (** the issues zod reports for a rejected profile patch *)
  updateUserProfile_errors : obj -> jsval;
  bcrypt_hash_strings : forall password salt hash,
    bcrypt_hash password salt = Ok hash -> exists s, password = Some (JStr s);
  bcrypt_compare_strings : forall supplied stored same,
    bcrypt_compare supplied stored = Ok same ->
    (exists s, supplied = JStr s) /\ (exists h, stored = Some (JStr h))
}.

(** ** Profile schema *)

(** The UTF-16 code units that the character starting with the byte
    [c] of a UTF-8 text takes: none for a continuation byte, two for
    the lead byte of a four-byte sequence (a surrogate pair), one
    otherwise. *)
Definition utf16_units (c : Ascii.ascii) : nat :=
  let n := Ascii.nat_of_ascii c in
  if Nat.ltb n 128 then 1%nat
  else if Nat.ltb n 192 then 0%nat
  else if Nat.ltb n 240 then 1%nat
  else 2%nat.

(** [s.length]: strings are kept in their UTF-8 encoding, the length
    JavaScript reports is the number of UTF-16 code units. *)
Fixpoint js_length (s : string) : nat :=
  match s with
  | EmptyString => 0%nat
  | String c s' => (utf16_units c + js_length s')%nat
  end.

(** [z.string().min(lo).max(hi).optional()]: absent, or a string whose
    length is within the bounds. *)
Definition optional_string (lo : nat) (hi : option nat) (v : option jsval)
  : bool :=
  match v with
  | None => true
  | Some (JStr s) =>
      Nat.leb lo (js_length s) &&
      match hi with
      | Some hi => Nat.leb (js_length s) hi
      | None => true
      end
  | Some _ => false
  end.

(** [updateUserProfileSchema]: unknown keys do not make [parse] fail. *)
Definition updateUserProfileSchema_accepts (b : obj) : bool :=
  optional_string 3 (Some 50%nat) (b !! "username") &&
  optional_string 0 None (b !! "avatar") &&
  optional_string 0 (Some 500%nat) (b !! "bio").

Section Server.
Context {E : External}.

Definition updateUserProfileSchema : ZodSchema :=
  {| zod_accepts := updateUserProfileSchema_accepts;
     zod_errors := updateUserProfile_errors |}.

(** ** Middleware: [None] is [next()], [Some r] ends the request. *)

Definition isAuthenticated (req : Request) : option Response :=
  match req_user req with
  | None => Some (message 401 "Необходима авторизация")
  | Some _ => None
  end.

Definition isAdmin (req : Request) : option Response :=
  match req_user req with
  | None => Some (message 401 "Необходима авторизация")
  | Some user =>
      if negb (strict_eq_opt (user !! "role") (Some (JStr "admin")))
      then Some (message 403 "Необходимы права администратора")
      else None
  end.

(** [schema.parse(req.body)] is called for its exception only: the
    handler that follows reads [req.body], not the parsed value. *)
Definition validateRequest (schema : ZodSchema) (req : Request)
  : option Response :=
  if zod_accepts schema (body req) then None
  else Some {| status := 400;
               payload := PJson (<["errors" := zod_errors schema (body req)]>
                                   {[ "message" := JStr "Ошибка валидации данных" ]}) |}.

(** ** Authentication *)

Definition hashPassword (password : option jsval) (env : Env)
  : Result string :=
  bcrypt_hash password (salt env).

Definition comparePasswords (supplied : jsval) (stored : option jsval)
  : Result bool :=
  bcrypt_compare supplied stored.

(** The verify function of the local strategy: [Ok None] is
    [done(null, false)], [Ok (Some user)] is [done(null, user)], [Err]
    is [done(err)]. *)
Definition localStrategy (st : MemStorage) (username password : jsval)
  : Result (option obj) :=
  match getUserByUsername st (Some username) with
  | None => Ok None
  | Some user =>
      match comparePasswords password (user !! "password") with
      | Err => Err
      | Ok true => Ok (Some user)
      | Ok false => Ok None
      end
  end.

(** [typeof v === 'object'] *)
Definition is_object (v : jsval) : bool :=
  match v with
  | JNull | JDate _ | JArr _ | JObj _ => true
  | JBool _ | JNum _ | JStr _ => false
  end.

(** [lookup(obj, field)] of passport-local, for a field name without
    brackets: the property, or [null] (here [None]) when it is
    undefined or an object. *)
Definition lookup (o : obj) (field : string) : option jsval :=
  match o !! field with
  | Some v => if is_object v then None else Some v
  | None => None
  end.

(** How the local strategy reads a credential,
    [lookup(req.body, field) || lookup(req.query, field)]: from the
    body, or from the query string when the body gives none or a falsy
    one. *)
Definition credential (req : Request) (field : string) : option jsval :=
  match lookup (body req) field with
  | Some v => if truthy v then Some v else lookup (query req) field
  | None => lookup (query req) field
  end.

(** [passport.authenticate("local", callback)]: the strategy fails the
    attempt without calling the verify function when a credential is
    missing. *)
Definition passport_authenticate (st : MemStorage) (req : Request)
  : Result (option obj) :=
  match credential req "username", credential req "password" with
  | Some username, Some password =>
      if truthy username && truthy password
      then localStrategy st username password
      else Ok None
  | _, _ => Ok None
  end.

(** [passport.serializeUser((user, done) => done(null, user.id))]:
    what [req.login] writes into the session.  Passport refuses a
    serialized value that is falsy and not [0]. *)
Definition serializeUser (user : obj) : Result jsval :=
  match user !! "id" with
  | Some v => if truthy v || strict_eq v (JNum 0) then Ok v else Err
  | None => Err
  end.

(** [passport.deserializeUser]: [req.user] for a session. *)
Definition deserializeUser (st : MemStorage) (session : option jsval)
  : option obj :=
  match as_key session with
  | Some id => getUser st id
  | None => None
  end.

(** ** Endpoints of [setupAuth] *)

(** A session is the user id passport keeps in it, if any.

    [api_register] is the register handler run from its first line to
    its answer with no other request in between.  The handler waits for
    bcrypt between the test for a taken name and the insertion, and
    other requests are served meanwhile: [register_guard] and
    [register_resume] below are the two parts. *)
Definition api_register (st : MemStorage) (session : option jsval)
  (req : Request) (env : Env)
  : MemStorage * option jsval * Response :=
  match getUserByUsername st (body req !! "username") with
  | Some _ => (st, session, message 400 "Имя пользователя уже занято")
  | None =>
      match hashPassword (body req !! "password") env with
      | Err => (st, session, message 500 "Ошибка регистрации")
      | Ok hash =>
          let '(st', user) :=
            createUser st (<["password" := JStr hash]> (body req)) (now env) in
          match serializeUser user with
          | Err => (st', session, next_error)
          | Ok id =>
              (st', Some id,
               {| status := 201; payload := PJson (safeUser user) |})
          end
      end
  end.

(** The register handler up to [await hashPassword(...)]: the answer
    when the name is taken ([None]: the handler goes on to hash). *)
Definition register_guard (st : MemStorage) (req : Request)
  : option Response :=
  match getUserByUsername st (body req !! "username") with
  | Some _ => Some (message 400 "Имя пользователя уже занято")
  | None => None
  end.

(** The register handler from the moment bcrypt has answered, on the
    store as it is by then. *)
Definition register_resume (st : MemStorage) (session : option jsval)
  (req : Request) (env : Env)
  : MemStorage * option jsval * Response :=
  match hashPassword (body req !! "password") env with
  | Err => (st, session, message 500 "Ошибка регистрации")
  | Ok hash =>
      let '(st', user) :=
        createUser st (<["password" := JStr hash]> (body req)) (now env) in
      match serializeUser user with
      | Err => (st', session, next_error)
      | Ok id =>
          (st', Some id,
           {| status := 201; payload := PJson (safeUser user) |})
      end
  end.

Definition api_login (st : MemStorage) (session : option jsval)
  (req : Request) : MemStorage * option jsval * Response :=
  match passport_authenticate st req with
  | Err => (st, session, next_error)
  | Ok None =>
      (st, session, message 401 "Неверное имя пользователя или пароль")
  | Ok (Some user) =>
      match serializeUser user with
      | Err => (st, session, next_error)
      | Ok id =>
          (st, Some id,
           {| status := 200; payload := PJson (safeUser user) |})
      end
  end.

Definition api_logout (st : MemStorage) (session : option jsval)
  (req : Request) : MemStorage * option jsval * Response :=
  (st, None, {| status := 200; payload := PNone |}).

Definition api_user (st : MemStorage) (req : Request)
  : MemStorage * Response :=
  match req_user req with
  | None => (st, message 401 "Не авторизован")
  | Some user => (st, {| status := 200; payload := PJson (safeUser user) |})
  end.

(** ** Routes of [registerRoutes]

    The [catch] branches of the handlers are not reached with this
    backend, whose operations do not throw. *)

(** [app.post('/api/upload', isAdmin, upload.array('files', 10), ...)] *)
Definition api_upload (st : MemStorage) (req : Request) (env : Env)
  : MemStorage * Response :=
  match isAdmin req with
  | Some r => (st, r)
  | None =>
      match uploaded env with
      | Err => (st, next_error)
      | Ok None => (st, message 400 "Не выбрано ни одного файла")
      | Ok (Some []) => (st, message 400 "Не выбрано ни одного файла")
      | Ok (Some files) =>
          let fileUrls := map (fun name => JStr ("/uploads/" ++ name)) files in
          (st, {| status := 201;
                  payload := PJson (<["message" := JStr "Файлы успешно загружены"]>
                                      {[ "files" := JArr fileUrls ]}) |})
      end
  end.

(** [app.get('/api/users', isAdmin, ...)] *)
Definition api_users (st : MemStorage) (req : Request)
  : MemStorage * Response :=
  match isAdmin req with
  | Some r => (st, r)
  | None =>
      (st, {| status := 200; payload := PList (map safeUser (getAllUsers st)) |})
  end.

(** [app.put('/api/users/profile', isAuthenticated,
    validateRequest(updateUserProfileSchema), ...)] *)
Definition api_users_profile (st : MemStorage) (req : Request)
  : MemStorage * Response :=
  match isAuthenticated req with
  | Some r => (st, r)
  | None =>
      match validateRequest updateUserProfileSchema req with
      | Some r => (st, r)
      | None =>
          let userId := from_option (fun user : obj => user !! "id") None (req_user req) in
          let '(st', updatedUser) :=
            match as_key userId with
            | Some id => updateUserProfile st id (body req)
            | None => (st, None)
            end in
          match updatedUser with
          | None => (st', message 404 "Пользователь не найден")
          | Some updatedUser =>
              (st', {| status := 200; payload := PJson (safeUser updatedUser) |})
          end
      end
  end.

Definition api_news_list (st : MemStorage) (req : Request)
  : MemStorage * Response :=
  (st, {| status := 200; payload := PList (getAllNews st) |}).

Definition api_news_get (st : MemStorage) (req : Request)
  : MemStorage * Response :=
  match params_id req with
  | None => (st, message 400 "Неверный ID новости")
  | Some newsId =>
      match getNewsById st newsId with
      | None => (st, message 404 "Новость не найдена")
      | Some newsItem => (st, {| status := 200; payload := PJson newsItem |})
      end
  end.

(** [app.post('/api/news', isAdmin, validateRequest(insertNewsSchema), ...)] *)
Definition api_news_create (st : MemStorage) (req : Request) (env : Env)
  : MemStorage * Response :=
  match isAdmin req with
  | Some r => (st, r)
  | None =>
      match validateRequest insertNewsSchema req with
      | Some r => (st, r)
      | None =>
          let userId := from_option (fun user : obj => user !! "id") None (req_user req) in
          let newsData := set_prop "userId" userId (body req) in
          let '(st', createdNews) := createNews st newsData (now env) in
          (st', {| status := 201; payload := PJson createdNews |})
      end
  end.

(** [app.put('/api/news/:id', isAuthenticated, ...)] *)
Definition api_news_update (st : MemStorage) (req : Request) (env : Env)
  : MemStorage * Response :=
  match isAuthenticated req with
  | Some r => (st, r)
  | None =>
      match params_id req with
      | None => (st, message 400 "Неверный ID новости")
      | Some newsId =>
          match getNewsById st newsId with
          | None => (st, message 404 "Новость не найдена")
          | Some newsItem =>
              let user := default ∅ (req_user req) in
              let isAdmin := strict_eq_opt (user !! "role") (Some (JStr "admin")) in
              if negb isAdmin && negb (strict_eq_opt (newsItem !! "userId") (user !! "id"))
              then (st, message 403 "У вас нет прав на редактирование этой новости")
              else
                let '(st', updatedNews) := updateNews st newsId (body req) (now env) in
                (st', {| status := 200;
                         payload := from_option PJson PNone updatedNews |})
          end
      end
  end.

(** [app.delete('/api/news/:id', isAuthenticated, ...)] *)
Definition api_news_delete (st : MemStorage) (req : Request)
  : MemStorage * Response :=
  match isAuthenticated req with
  | Some r => (st, r)
  | None =>
      match params_id req with
      | None => (st, message 400 "Неверный ID новости")
      | Some newsId =>
          match getNewsById st newsId with
          | None => (st, message 404 "Новость не найдена")
          | Some newsItem =>
              let user := default ∅ (req_user req) in
              let isAdmin := strict_eq_opt (user !! "role") (Some (JStr "admin")) in
              if negb isAdmin && negb (strict_eq_opt (newsItem !! "userId") (user !! "id"))
              then (st, message 403 "У вас нет прав на удаление этой новости")
              else
                let '(st', success) := deleteNews st newsId in
                if success
                then (st', {| status := 204; payload := PNone |})
                else (st', message 404 "Новость не найдена")
          end
      end
  end.

Definition api_projects_list (st : MemStorage) (req : Request)
  : MemStorage * Response :=
  (st, {| status := 200; payload := PList (getAllProjects st) |}).

Definition api_projects_get (st : MemStorage) (req : Request)
  : MemStorage * Response :=
  match params_id req with
  | None => (st, message 400 "Неверный ID проекта")
  | Some projectId =>
      match getProjectById st projectId with
      | None => (st, message 404 "Проект не найден")
      | Some project => (st, {| status := 200; payload := PJson project |})
      end
  end.

(** [app.post('/api/projects', isAdmin,
    validateRequest(insertProjectSchema), ...)] *)
Definition api_projects_create (st : MemStorage) (req : Request) (env : Env)
  : MemStorage * Response :=
  match isAdmin req with
  | Some r => (st, r)
  | None =>
      match validateRequest insertProjectSchema req with
      | Some r => (st, r)
      | None =>
          let userId := from_option (fun user : obj => user !! "id") None (req_user req) in
          let projectData := set_prop "userId" userId (body req) in
          let '(st', createdProject) := createProject st projectData (now env) in
          (st', {| status := 201; payload := PJson createdProject |})
      end
  end.

(** [app.put('/api/projects/:id', isAuthenticated, ...)] *)
Definition api_projects_update (st : MemStorage) (req : Request) (env : Env)
  : MemStorage * Response :=
  match isAuthenticated req with
  | Some r => (st, r)
  | None =>
      match params_id req with
      | None => (st, message 400 "Неверный ID проекта")
      | Some projectId =>
          match getProjectById st projectId with
          | None => (st, message 404 "Проект не найден")
          | Some project =>
              let user := default ∅ (req_user req) in
              let isAdmin := strict_eq_opt (user !! "role") (Some (JStr "admin")) in
              if negb isAdmin && negb (strict_eq_opt (project !! "userId") (user !! "id"))
              then (st, message 403 "У вас нет прав на редактирование этого проекта")
              else
                let '(st', updatedProject) :=
                  updateProject st projectId (body req) (now env) in
                (st', {| status := 200;
                         payload := from_option PJson PNone updatedProject |})
          end
      end
  end.

(** [app.delete('/api/projects/:id', isAuthenticated, ...)] *)
Definition api_projects_delete (st : MemStorage) (req : Request)
  : MemStorage * Response :=
  match isAuthenticated req with
  | Some r => (st, r)
  | None =>
      match params_id req with
      | None => (st, message 400 "Неверный ID проекта")
      | Some projectId =>
          match getProjectById st projectId with
          | None => (st, message 404 "Проект не найден")
          | Some project =>
              let user := default ∅ (req_user req) in
              let isAdmin := strict_eq_opt (user !! "role") (Some (JStr "admin")) in
              if negb isAdmin && negb (strict_eq_opt (project !! "userId") (user !! "id"))
              then (st, message 403 "У вас нет прав на удаление этого проекта")
              else
                let '(st', success) := deleteProject st projectId in
                if success
                then (st', {| status := 204; payload := PNone |})
                else (st', message 404 "Проект не найден")
          end
      end
  end.

End Server.

(** ** Properties of stores and payloads *)

(** The keys of a table are distinct counter values already handed out,
    and the counter has not gone below its initial value. *)
Definition table_inv (m : list (Z * obj)) (next : Z) : Prop :=
  1 <= next /\
  NoDup (JsMap.keys m) /\
  Forall (fun k => 1 <= k < next) (JsMap.keys m).

Definition store_inv (st : MemStorage) : Prop :=
  table_inv (users st) (userId st) /\
  table_inv (newsItems st) (newsId st) /\
  table_inv (projectItems st) (projectId st).

(** The stores the storage operations build from the empty one. *)
Inductive reachable : MemStorage -> Prop :=
| reach_new : reachable new_MemStorage
| reach_createUser st insertUser now :
    reachable st -> reachable (createUser st insertUser now).1
| reach_updateUserProfile st id profile :
    reachable st -> reachable (updateUserProfile st id profile).1
| reach_createNews st newsItem now :
    reachable st -> reachable (createNews st newsItem now).1
| reach_updateNews st id newsUpdate now :
    reachable st -> reachable (updateNews st id newsUpdate now).1
| reach_deleteNews st id :
    reachable st -> reachable (deleteNews st id).1
| reach_createProject st projectItem now :
    reachable st -> reachable (createProject st projectItem now).1
| reach_updateProject st id projectUpdate now :
    reachable st -> reachable (updateProject st id projectUpdate now).1
| reach_deleteProject st id :
    reachable st -> reachable (deleteProject st id).1.

(** The usernames of the stored accounts, in table order. *)
Definition usernames (st : MemStorage) : list (option jsval) :=
  map (fun user : obj => user !! "username") (getAllUsers st).

(** A payload shows no [password] property: of the object itself, or of
    any object of the array. *)
Definition no_password (p : Payload) : Prop :=
  match p with
  | PJson o => o !! "password" = None
  | PList l => Forall (fun o : obj => o !! "password" = None) l
  | PNone => True
  end.

(** The owner-or-admin rule in the words of the design: the identity is
    an administrator, or its id is the resource's owner id. *)
Definition requireOwnerOrAdmin (identity : obj) (resourceOwnerId : option jsval)
  : bool :=
  strict_eq_opt (identity !! "role") (Some (JStr "admin")) ||
  strict_eq_opt (identity !! "id") resourceOwnerId.

(** Two bodies that differ at most in one property. *)
Definition differ_only_in (k : string) (b1 b2 : obj) : Prop :=
  delete k b1 = delete k b2.

(** ** A stand-in for the external libraries

    It lets the endpoints run on concrete requests.  The digest is the
    salt followed by the plaintext and every body passes the table
    schemas; like the library, both functions reject an argument that
    is not a string.  No general statement below depends on these
    choices. *)
Definition plain_hash (password : option jsval) (salt : string)
  : Result string :=
  match password with
  | Some (JStr s) => Ok (salt ++ s)
  | _ => Err
  end.

Definition plain_compare (supplied : jsval) (stored : option jsval)
  : Result bool :=
  match supplied, stored with
  | JStr s, Some (JStr h) =>
      Ok (String.eqb (String.substring 29 (String.length h - 29)%nat h) s)
  | _, _ => Err
  end.

Definition plain_external : External.
Proof.
  refine {| bcrypt_hash := plain_hash;
            bcrypt_compare := plain_compare;
            insertNewsSchema :=
              {| zod_accepts := fun _ => true; zod_errors := fun _ => JArr [] |};
            insertProjectSchema :=
              {| zod_accepts := fun _ => true; zod_errors := fun _ => JArr [] |};
            updateUserProfile_errors := fun _ => JArr [] |}.
  - intros password salt hash. destruct password as [[]|]; try discriminate.
    eauto.
  - intros supplied stored same. destruct supplied; try discriminate.
    destruct stored as [[]|]; try discriminate. eauto.
Defined.

(** ** Sample requests *)

Definition env0 : Env :=
  {| now := 1700000000000;
     salt := "$2a$10$abcdefghijklmnopqrstuu";
     uploaded := Ok None |}.

Definition anonymous (b : obj) : Request :=
  {| req_user := None; body := b; query := ∅; params_id := None |}.

Definition alice_body : obj :=
  <["username" := JStr "alice"]> {[ "password" := JStr "secret1" ]}.

Definition bob_body : obj :=
  <["username" := JStr "bob"]> {[ "password" := JStr "secret2" ]}.

(** What the registration form sends with the admin code filled in. *)
Definition eve_admin_body : obj :=
  <["role" := JStr "admin"]>
    (<["username" := JStr "eve"]> {[ "password" := JStr "secret3" ]}).

(** The same request without the role. *)
Definition eve_plain_body : obj :=
  <["username" := JStr "eve"]> {[ "password" := JStr "secret3" ]}.

(** The same request with the role the form sends without the code. *)
Definition eve_user_body : obj :=
  <["role" := JStr "user"]>
    (<["username" := JStr "eve"]> {[ "password" := JStr "secret3" ]}).

(** The store after alice registered, and after bob did. *)
Definition store_alice : MemStorage :=
  (api_register (E := plain_external) new_MemStorage None
     (anonymous alice_body) env0).1.1.

Definition store_alice_bob : MemStorage :=
  (api_register (E := plain_external) store_alice None
     (anonymous bob_body) env0).1.1.

(** Bob's session after registering, and a request of his. *)
Definition bob_session : option jsval :=
  (api_register (E := plain_external) store_alice None
     (anonymous bob_body) env0).1.2.

Definition as_bob (b : obj) (id : option Z) : Request :=
  {| req_user := deserializeUser store_alice_bob bob_session;
     body := b; query := ∅; params_id := id |}.

(** Bob renames himself to alice. *)
Definition bob_takes_alice : Request :=
  as_bob {[ "username" := JStr "alice" ]} None.

(** Some stored account has this username, as [===] sees it. *)
Definition username_taken (st : MemStorage) (username : option jsval) : Prop :=
  exists user : obj,
    user ∈ getAllUsers st /\ strict_eq_opt (user !! "username") username = true.

(** How a guarded handler follows a decision: it answers 403 exactly
    when the decision is to deny, a denial leaves the store alone, and
    an allowed request is performed. *)
Definition gate_decides (allowed : bool) (st : MemStorage)
  (out performed : MemStorage * Response) : Prop :=
  (status out.2 = 403 <-> allowed = false) /\
  (allowed = false -> out.1 = st) /\
  (allowed = true -> out = performed).

(** The role of the account that registering with body [b] creates in
    the empty store. *)
Definition registered_role (b : obj) : option jsval :=
  let st := (api_register (E := plain_external) new_MemStorage None
               (anonymous b) env0).1.1 in
  getUser st 1 ≫= fun user : obj => user !! "role".

(** A candidate for [createUser] that repeats alice's username. *)
Definition second_alice : obj :=
  <["username" := JStr "alice"]>
    {[ "password" := JStr "$2a$10$abcdefghijklmnopqrstuusecret9" ]}.

(** What an admin-gated route answers: 401 exactly to a caller that is
    not authenticated, 403 exactly to an authenticated caller whose role
    is not admin. *)
Definition admin_gated (req : Request) (r : Response) : Prop :=
  (status r = 401 <-> req_user req = None) /\
  (status r = 403 <->
   exists user : obj,
     req_user req = Some user /\ user !! "role" <> Some (JStr "admin")).

(** A site with three accounts, alice (1) and bob (2) with the role
    user and eve (3) with the role admin, two news items, of alice (1)
    and of eve (2), and a project of alice (1). *)
Definition item_of (owner : Z) : obj :=
  <["title" := JStr "title"]>
    (<["content" := JStr "content"]> {[ "userId" := JNum owner ]}).

Definition site_store : MemStorage :=
  let st3 := (api_register (E := plain_external) store_alice_bob None
                (anonymous eve_admin_body) env0).1.1 in
  let st4 := (createNews st3 (item_of 1) (now env0)).1 in
  let st5 := (createNews st4 (item_of 3) (now env0)).1 in
  (createProject st5 (item_of 1) (now env0)).1.

(** A request of the account [id] of the site. *)
Definition caller (id : Z) (b : obj) (param : option Z) : Request :=
  {| req_user := getUser site_store id; body := b; query := ∅;
     params_id := param |}.

(** The status of the answer to a news update by the account [id] on
    the news item [item]. *)
Definition update_status (id item : Z) : Z :=
  status (api_news_update site_store (caller id ∅ (Some item)) env0).2.

(** The store after bob's rename. *)
Definition store_renamed : MemStorage :=
  (api_users_profile (E := plain_external) store_alice_bob bob_takes_alice).1.

(** Two login attempts on the store that holds alice: an unknown name,
    and alice's name with a wrong password. *)
Definition login_unknown : Request :=
  anonymous (<["username" := JStr "mallory"]> {[ "password" := JStr "guess" ]}).

Definition login_wrong : Request :=
  anonymous (<["username" := JStr "alice"]> {[ "password" := JStr "wrong" ]}).

(** The same two attempts with a number for a password. *)
Definition login_unknown_number : Request :=
  anonymous (<["username" := JStr "mallory"]> {[ "password" := JNum 12345 ]}).

Definition login_known_number : Request :=
  anonymous (<["username" := JStr "alice"]> {[ "password" := JNum 12345 ]}).

(** Eve, the administrator of the site, posts an item that names alice
    as its owner, and the same item naming bob. *)
Definition eve_posts_as_alice : Request := caller 3 (item_of 1) None.
Definition eve_posts_as_bob : Request := caller 3 (item_of 2) None.

(** The account stored under [id], and the first news item of the site. *)
Definition account (st : MemStorage) (id : Z) : obj :=
  default ∅ (getUser st id).

Definition first_news : obj := default ∅ (getNewsById site_store 1).

(** ** Further properties of stores *)

(** Every stored account carries its key as its [id] property. *)
Definition ids_agree (st : MemStorage) : Prop :=
  forall (k : Z) (user : obj),
    getUser st k = Some user -> user !! "id" = Some (JNum k).

(** A store with one news item and one project, built by the storage
    operations alone. *)
Definition store_one_each : MemStorage :=
  (createProject (createNews new_MemStorage (item_of 1) 5).1 (item_of 1) 6).1.

(** Alice's registration body with the credentials the login form
    sends. *)
Definition alice_request : Request := anonymous alice_body.

(** An outcome that is an error (status 400 and above) comes with the
    store it started from. *)
Definition error_keeps (st : MemStorage) (out : MemStorage * Response) : Prop :=
  400 <= status out.2 -> out.1 = st.

(** Alice's registration body with an identifier of her choosing. *)
Definition alice_with_id : obj := <["id" := JNum 99]> alice_body.

(** Eve posts an item, once as it is and once with an identifier of her
    choosing. *)
Definition eve_posts_with_id : Request :=
  caller 3 (<["id" := JNum 77]> (item_of 1)) None.

(** Alice gives her news item a new title. *)
Definition alice_retitles : Request :=
  caller 1 {[ "title" := JStr "renamed" ]} (Some 1).

(** Bob asks for the role admin through the profile update. *)
Definition bob_takes_role : Request :=
  as_bob {[ "role" := JStr "admin" ]} None.

(** Twenty-six Cyrillic letters: 52 bytes, of length 26. *)
Definition long_name : string := "абвгдежзийклмнопрстуфхцчшщ".

Definition bob_takes_long_name : Request :=
  as_bob {[ "username" := JStr long_name ]} None.

Definition bob_takes_short_name : Request :=
  as_bob {[ "username" := JStr "аб" ]} None.

(** Alice logs in with an empty body and her credentials in the query
    string. *)
Definition login_by_query : Request :=
  {| req_user := None; body := ∅; query := alice_body; params_id := None |}.

(** The same with an object for a username in the body, which the
    strategy passes over. *)
Definition login_object_in_body : Request :=
  {| req_user := None;
     body := {[ "username" := JObj [("name", JStr "mallory")] ]};
     query := alice_body;
     params_id := None |}.

(** * Facts *)

(** Closes an equation between closed terms by evaluation. *)
Ltac computes :=
  lazymatch goal with
  | |- @eq ?T ?a ?b => vm_cast_no_check (@eq_refl T b)
  end.


(** ** Values *)

Lemma strict_eq_sym (a b : jsval) : strict_eq a b = strict_eq b a.
Proof.
  destruct a, b; simpl; try reflexivity.
  - destruct b, b0; reflexivity.
  - apply Z.eqb_sym.
  - apply String.eqb_sym.
Qed.

Lemma strict_eq_opt_sym (a b : option jsval) :
  strict_eq_opt a b = strict_eq_opt b a.
Proof. destruct a, b; simpl; auto using strict_eq_sym. Qed.

Lemma strict_eq_JStr (a : option jsval) (s : string) :
  strict_eq_opt a (Some (JStr s)) = true <-> a = Some (JStr s).
Proof.
  split.
  - destruct a as [[]|]; simpl; try discriminate.
    intros H. apply String.eqb_eq in H. by subst.
  - intros ->. simpl. apply String.eqb_refl.
Qed.

Lemma strict_eq_JNum (a b : Z) :
  strict_eq_opt (Some (JNum a)) (Some (JNum b)) = true <-> a = b.
Proof. simpl. apply Z.eqb_eq. Qed.

Lemma js_or_absent (b : jsval) : js_or None b = b.
Proof. reflexivity. Qed.

Lemma js_or_truthy (v b : jsval) : truthy v = true -> js_or (Some v) b = v.
Proof. intros H. simpl. by rewrite H. Qed.

Lemma set_prop_lookup (k : string) (v : option jsval) (o : obj) :
  set_prop k v o !! k = v.
Proof.
  destruct v; simpl; [apply lookup_insert_eq | apply lookup_delete_eq].
Qed.

Lemma set_prop_lookup_ne (k k' : string) (v : option jsval) (o : obj) :
  k <> k' -> set_prop k v o !! k' = o !! k'.
Proof.
  intros Hne. destruct v; simpl;
    [by apply lookup_insert_ne | by apply lookup_delete_ne].
Qed.

(** Two bodies that differ at most in [k] become equal once [k] is set. *)
Lemma set_prop_differ_only_in (k : string) (v : option jsval) (b1 b2 : obj) :
  differ_only_in k b1 b2 -> set_prop k v b1 = set_prop k v b2.
Proof.
  unfold differ_only_in. intros Hd. apply map_eq. intros j.
  destruct (decide (k = j)) as [->|Hne].
  - by rewrite !set_prop_lookup.
  - rewrite !set_prop_lookup_ne by done.
    apply (f_equal (fun m : obj => m !! j)) in Hd.
    by rewrite !lookup_delete_ne in Hd.
Qed.

Lemma safeUser_no_password (user : obj) : safeUser user !! "password" = None.
Proof. apply lookup_delete_eq. Qed.

(** ** Tables *)

Section JsMapFacts.
Context {V : Type}.
Implicit Types (m : list (Z * V)) (k : Z) (v : V).

Lemma get_set_eq k v m : JsMap.get k (JsMap.set k v m) = Some v.
Proof.
  induction m as [|[k' v'] m IH]; simpl.
  - by rewrite Z.eqb_refl.
  - destruct (Z.eqb k k') eqn:Hk; simpl; rewrite ?Z.eqb_refl, ?Hk; auto.
Qed.

Lemma get_set_ne k k' v m :
  k <> k' -> JsMap.get k' (JsMap.set k v m) = JsMap.get k' m.
Proof.
  intros Hne. induction m as [|[k0 v0] m IH]; simpl.
  - destruct (Z.eqb_spec k' k); [congruence | done].
  - destruct (Z.eqb_spec k k0) as [->|]; simpl.
    + destruct (Z.eqb_spec k' k0); [congruence | done].
    + by rewrite IH.
Qed.

Lemma get_None_keys k m : JsMap.get k m = None <-> k ∉ JsMap.keys m.
Proof.
  induction m as [|[k' v'] m IH]; simpl.
  - split; [intros _; apply not_elem_of_nil | done].
  - rewrite not_elem_of_cons. destruct (Z.eqb_spec k k'); split.
    + discriminate.
    + intros [? _]. congruence.
    + intros H. split; [done | by apply IH].
    + intros [_ H]. by apply IH.
Qed.

Lemma get_Some_keys k v m : JsMap.get k m = Some v -> k ∈ JsMap.keys m.
Proof.
  intros H. destruct (decide (k ∈ JsMap.keys m)) as [|Hn]; [done|].
  apply get_None_keys in Hn. congruence.
Qed.

(** A new key goes to the end of the table. *)
Lemma set_fresh k v m : JsMap.get k m = None -> JsMap.set k v m = (m ++ [(k, v)])%list.
Proof.
  induction m as [|[k' v'] m IH]; simpl; [done|].
  destruct (Z.eqb k k'); [discriminate|]. intros H. by rewrite IH.
Qed.

(** A present key keeps its place: the keys do not change. *)
Lemma keys_set_present k v m :
  k ∈ JsMap.keys m -> JsMap.keys (JsMap.set k v m) = JsMap.keys m.
Proof.
  induction m as [|[k' v'] m IH]; simpl.
  - intros H. by apply elem_of_nil in H.
  - destruct (Z.eqb_spec k k') as [->|Hne]; simpl; [done|].
    intros H. apply elem_of_cons in H as [?|H]; [done|].
    f_equal. by apply IH.
Qed.

Lemma keys_set_fresh k v m :
  k ∉ JsMap.keys m -> JsMap.keys (JsMap.set k v m) = (JsMap.keys m ++ [k])%list.
Proof.
  intros H. apply get_None_keys in H. rewrite (set_fresh _ _ _ H).
  unfold JsMap.keys. by rewrite map_app.
Qed.

Lemma keys_remove_sub k m : JsMap.keys (JsMap.remove k m) ⊆ JsMap.keys m.
Proof.
  induction m as [|[k' v'] m IH]; simpl; [done|].
  destruct (Z.eqb k k'); simpl.
  - intros x Hx. apply elem_of_cons. by right.
  - intros x Hx. apply elem_of_cons in Hx as [->|Hx].
    + apply elem_of_cons. by left.
    + apply elem_of_cons. right. by apply IH.
Qed.

Lemma NoDup_keys_remove k m :
  NoDup (JsMap.keys m) -> NoDup (JsMap.keys (JsMap.remove k m)).
Proof.
  induction m as [|[k' v'] m IH]; simpl; [done|].
  intros Hnd. apply NoDup_cons in Hnd as [Hnot Hnd].
  destruct (Z.eqb k k'); simpl; [done|].
  apply NoDup_cons. split; [|by apply IH].
  intros Hin. apply Hnot. by apply (keys_remove_sub k m).
Qed.

Lemma has_get k m : JsMap.has k m = true <-> is_Some (JsMap.get k m).
Proof.
  unfold JsMap.has. destruct (JsMap.get k m); split; done.
Qed.
End JsMapFacts.

(** ** The store invariant *)

Lemma table_inv_new : table_inv [] 1.
Proof. split_and!; [lia | apply NoDup_nil_2 | apply Forall_nil_2]. Qed.

(** The counter is not a key yet. *)
Lemma table_inv_fresh (m : list (Z * obj)) (next : Z) :
  table_inv m next -> JsMap.get next m = None.
Proof.
  intros (_ & _ & Hlt). apply get_None_keys. intros Hin.
  rewrite Forall_forall in Hlt. specialize (Hlt _ Hin). lia.
Qed.

Lemma table_inv_add (m : list (Z * obj)) (next : Z) (v : obj) :
  table_inv m next -> table_inv (JsMap.set next v m) (next + 1).
Proof.
  intros Hinv. pose proof (table_inv_fresh _ _ Hinv) as Hfresh.
  destruct Hinv as (Hpos & Hnd & Hlt). apply get_None_keys in Hfresh.
  unfold table_inv. rewrite keys_set_fresh by done. split_and!.
  - lia.
  - apply NoDup_app. split_and!; [done | | apply NoDup_singleton].
    intros x Hx Hx'. apply list_elem_of_singleton in Hx' as ->. done.
  - apply Forall_app. split.
    + eapply Forall_impl; [exact Hlt|]. simpl. intros; lia.
    + apply Forall_singleton. lia.
Qed.

Lemma table_inv_replace (m : list (Z * obj)) (next k : Z) (v v' : obj) :
  JsMap.get k m = Some v' -> table_inv m next -> table_inv (JsMap.set k v m) next.
Proof.
  intros Hget Hinv. unfold table_inv. rewrite keys_set_present; [done|].
  by eapply get_Some_keys.
Qed.

Lemma table_inv_remove (m : list (Z * obj)) (next k : Z) :
  table_inv m next -> table_inv (JsMap.remove k m) next.
Proof.
  intros (Hpos & Hnd & Hlt). split_and!; [done | by apply NoDup_keys_remove |].
  rewrite Forall_forall. intros x Hx. rewrite Forall_forall in Hlt.
  apply Hlt. by apply (keys_remove_sub k m).
Qed.

Lemma store_inv_new : store_inv new_MemStorage.
Proof. split_and!; apply table_inv_new. Qed.

Lemma store_inv_createUser st insertUser now :
  store_inv st -> store_inv (createUser st insertUser now).1.
Proof.
  intros (Hu & Hn & Hp). split_and!; simpl; [|done..].
  by apply table_inv_add.
Qed.

Lemma store_inv_updateUserProfile st id profile :
  store_inv st -> store_inv (updateUserProfile st id profile).1.
Proof.
  intros (Hu & Hn & Hp). unfold updateUserProfile.
  destruct (JsMap.get id (users st)) eqn:Hget; simpl; [|done].
  split_and!; simpl; [|done..]. by eapply table_inv_replace.
Qed.

Lemma store_inv_createNews st newsItem now :
  store_inv st -> store_inv (createNews st newsItem now).1.
Proof.
  intros (Hu & Hn & Hp). split_and!; simpl; [done| |done].
  by apply table_inv_add.
Qed.

Lemma store_inv_updateNews st id newsUpdate now :
  store_inv st -> store_inv (updateNews st id newsUpdate now).1.
Proof.
  intros (Hu & Hn & Hp). unfold updateNews.
  destruct (JsMap.get id (newsItems st)) eqn:Hget; simpl; [|done].
  split_and!; simpl; [done| |done]. by eapply table_inv_replace.
Qed.

Lemma store_inv_deleteNews st id :
  store_inv st -> store_inv (deleteNews st id).1.
Proof.
  intros (Hu & Hn & Hp). split_and!; simpl; [done| |done].
  by apply table_inv_remove.
Qed.

Lemma store_inv_createProject st projectItem now :
  store_inv st -> store_inv (createProject st projectItem now).1.
Proof.
  intros (Hu & Hn & Hp). split_and!; simpl; [done..|].
  by apply table_inv_add.
Qed.

Lemma store_inv_updateProject st id projectUpdate now :
  store_inv st -> store_inv (updateProject st id projectUpdate now).1.
Proof.
  intros (Hu & Hn & Hp). unfold updateProject.
  destruct (JsMap.get id (projectItems st)) eqn:Hget; simpl; [|done].
  split_and!; simpl; [done..|]. by eapply table_inv_replace.
Qed.

Lemma store_inv_deleteProject st id :
  store_inv st -> store_inv (deleteProject st id).1.
Proof.
  intros (Hu & Hn & Hp). split_and!; simpl; [done..|].
  by apply table_inv_remove.
Qed.

Create HintDb store.
#[local] Hint Resolve store_inv_new store_inv_createUser
  store_inv_updateUserProfile store_inv_createNews store_inv_updateNews
  store_inv_deleteNews store_inv_createProject store_inv_updateProject
  store_inv_deleteProject : store.

(** Every store the operations build satisfies the invariant. *)
Lemma reachable_store_inv (st : MemStorage) : reachable st -> store_inv st.
Proof. induction 1; auto with store. Qed.

(** ** Account creation *)

Lemma createUser_id st insertUser now :
  (createUser st insertUser now).2 !! "id" = Some (JNum (userId st)).
Proof. simpl. by simplify_map_eq. Qed.

Lemma createUser_role st insertUser now :
  (createUser st insertUser now).2 !! "role"
  = Some (js_or (insertUser !! "role") (JStr "user")).
Proof. simpl. by simplify_map_eq. Qed.

(** The properties [createUser] does not set come from the candidate. *)
Lemma createUser_other st insertUser now (k : string) :
  k ∉ ["createdAt"; "role"; "bio"; "avatar"; "id"] ->
  (createUser st insertUser now).2 !! k = insertUser !! k.
Proof.
  intros Hk. rewrite !not_elem_of_cons in Hk.
  destruct Hk as (? & ? & ? & ? & ? & _). simpl.
  rewrite !lookup_insert_ne by done. by rewrite lookup_delete_ne.
Qed.

Lemma createUser_stored st insertUser now :
  getUser (createUser st insertUser now).1 (userId st)
  = Some (createUser st insertUser now).2.
Proof. unfold getUser. simpl. apply get_set_eq. Qed.

Lemma createUser_others st insertUser now (id : Z) :
  id <> userId st ->
  getUser (createUser st insertUser now).1 id = getUser st id.
Proof. intros Hne. unfold getUser. simpl. by apply get_set_ne. Qed.

Lemma getUserByUsername_taken st username :
  getUserByUsername st username <> None <-> username_taken st username.
Proof.
  unfold getUserByUsername, username_taken, getAllUsers. split.
  - destruct (find _ _) as [user|] eqn:Hf; [intros _|done].
    apply find_some in Hf as [Hin Heq]. exists user.
    by rewrite list_elem_of_In.
  - intros (user & Hin & Heq) Hnone. rewrite list_elem_of_In in Hin.
    pose proof (find_none _ _ Hnone _ Hin) as Hn. simpl in Hn. congruence.
Qed.

Section Registration.
Context {E : External}.

Lemma serializeUser_created st insertUser now :
  serializeUser (createUser st insertUser now).2 = Ok (JNum (userId st)).
Proof.
  unfold serializeUser. rewrite createUser_id. simpl.
  by destruct (Z.eqb (userId st) 0).
Qed.

(** A registration with a free username whose password hashes creates
    the account, opens the session and answers 201. *)
Lemma api_register_fresh st session req env hash :
  getUserByUsername st (body req !! "username") = None ->
  hashPassword (body req !! "password") env = Ok hash ->
  api_register st session req env =
    ((createUser st (<["password" := JStr hash]> (body req)) (now env)).1,
     Some (JNum (userId st)),
     {| status := 201;
        payload := PJson (safeUser
          (createUser st (<["password" := JStr hash]> (body req)) (now env)).2) |}).
Proof.
  intros Hfree Hhash. unfold api_register. rewrite Hfree, Hhash.
  destruct (createUser _ _ _) as [st' user] eqn:Hc.
  pose proof (serializeUser_created st (<["password" := JStr hash]> (body req)) (now env)) as Hs.
  rewrite Hc in Hs. simpl in Hs. by rewrite Hs.
Qed.

Lemma differ_only_in_lookup (k j : string) (b1 b2 : obj) :
  differ_only_in k b1 b2 -> j <> k -> b1 !! j = b2 !! j.
Proof.
  unfold differ_only_in. intros Hd Hne.
  apply (f_equal (fun m : obj => m !! j)) in Hd.
  by rewrite !lookup_delete_ne in Hd.
Qed.

Lemma differ_only_in_insert (k j : string) (v : jsval) (b1 b2 : obj) :
  differ_only_in k b1 b2 -> differ_only_in k (<[j := v]> b1) (<[j := v]> b2).
Proof.
  unfold differ_only_in. intros Hd. apply map_eq. intros i.
  destruct (decide (k = i)) as [->|Hki].
  - by rewrite !lookup_delete_eq.
  - rewrite !lookup_delete_ne by done.
    destruct (decide (j = i)) as [->|Hji].
    + by rewrite !lookup_insert_eq.
    + rewrite !lookup_insert_ne by done. by apply (differ_only_in_lookup k).
Qed.

(** Candidates that differ at most in [role] give accounts that differ
    at most in [role]. *)
Lemma createUser_differ_only_in_role st u1 u2 now (k : string) :
  differ_only_in "role" u1 u2 -> k <> "role" ->
  (createUser st u1 now).2 !! k = (createUser st u2 now).2 !! k.
Proof.
  intros Hd Hk. simpl. rewrite !lookup_insert.
  repeat case_decide; try done. unfold differ_only_in in Hd. by rewrite Hd.
Qed.

(** C1, as the code has it: the role stored on a created account is the
    role property of the request body whenever that is truthy, and
    ["user"] otherwise; nothing else of the request decides it (no admin
    code is read).  Two registration requests that differ only in the
    role property create accounts that agree on every property but the
    role, each with the role its own request asked for. *)
Theorem register_role_follows_request st session req env hash :
  getUserByUsername st (body req !! "username") = None ->
  hashPassword (body req !! "password") env = Ok hash ->
  exists st' user,
    api_register st session req env
      = (st', Some (JNum (userId st)),
         {| status := 201; payload := PJson (safeUser user) |}) /\
    getUser st' (userId st) = Some user /\
    user !! "role" = Some (js_or (body req !! "role") (JStr "user")) /\
    forall req2 : Request,
      differ_only_in "role" (body req) (body req2) ->
      exists st2 user2,
        api_register st session req2 env
          = (st2, Some (JNum (userId st)),
             {| status := 201; payload := PJson (safeUser user2) |}) /\
        getUser st2 (userId st) = Some user2 /\
        user2 !! "role" = Some (js_or (body req2 !! "role") (JStr "user")) /\
        forall k : string, k <> "role" -> user2 !! k = user !! k.
Proof.
  intros Hfree Hhash. eexists _, _. split_and!.
  - by apply api_register_fresh.
  - apply createUser_stored.
  - rewrite createUser_role. by rewrite lookup_insert_ne.
  - intros req2 Hd.
    assert (body req2 !! "username" = body req !! "username") as Hname
      by (symmetry; by apply (differ_only_in_lookup "role")).
    assert (body req2 !! "password" = body req !! "password") as Hpw
      by (symmetry; by apply (differ_only_in_lookup "role")).
    eexists _, _. split_and!.
    + apply api_register_fresh; [by rewrite Hname | by rewrite Hpw].
    + apply createUser_stored.
    + rewrite createUser_role. by rewrite lookup_insert_ne.
    + intros k Hk. symmetry.
      apply createUser_differ_only_in_role; [|done].
      by apply differ_only_in_insert.
Qed.

(** C2, as the code has it: the register endpoint answers a request
    whose username is that of a stored account with the 400 "username
    taken" response and leaves store and session as they were;
    [createUser] itself checks nothing.  With a free username and a
    password that hashes, the account is created under the counter
    value, which no account of the store had, every other account is
    kept, the keys stay distinct, and a candidate without a role gets
    the role ["user"]. *)
Theorem register_conflict_or_create st session req env :
  store_inv st ->
  (username_taken st (body req !! "username") ->
     api_register st session req env
       = (st, session, message 400 "Имя пользователя уже занято")) /\
  (forall hash,
     ~ username_taken st (body req !! "username") ->
     hashPassword (body req !! "password") env = Ok hash ->
     exists st' user,
       api_register st session req env
         = (st', Some (JNum (userId st)),
            {| status := 201; payload := PJson (safeUser user) |}) /\
       createUser st (<["password" := JStr hash]> (body req)) (now env)
         = (st', user) /\
       user !! "id" = Some (JNum (userId st)) /\
       getUser st (userId st) = None /\
       getUser st' (userId st) = Some user /\
       (forall id, id <> userId st -> getUser st' id = getUser st id) /\
       store_inv st' /\
       (body req !! "role" = None -> user !! "role" = Some (JStr "user"))).
Proof.
  intros Hinv. split.
  - intros Htaken. apply getUserByUsername_taken in Htaken.
    unfold api_register.
    by destruct (getUserByUsername st (body req !! "username")).
  - intros hash Hfree Hhash.
    assert (getUserByUsername st (body req !! "username") = None) as Hnone.
    { destruct (getUserByUsername st (body req !! "username")) eqn:Hg; [|done].
      exfalso. apply Hfree, getUserByUsername_taken. by rewrite Hg. }
    eexists _, _. split_and!.
    + by apply api_register_fresh.
    + by destruct (createUser _ _ _).
    + apply createUser_id.
    + apply table_inv_fresh, Hinv.
    + apply createUser_stored.
    + intros id Hne. by apply createUser_others.
    + by apply store_inv_createUser.
    + intros Hrole. rewrite createUser_role.
      rewrite lookup_insert_ne by done. by rewrite Hrole.
Qed.

End Registration.

(** Registering with the role the form sends once the admin code is
    typed stores an administrator; the same request with the other
    role, or with none, stores a user. *)
Lemma register_role_differs :
  differ_only_in "role" eve_admin_body eve_user_body /\
  differ_only_in "role" eve_admin_body eve_plain_body /\
  registered_role eve_admin_body = Some (JStr "admin") /\
  registered_role eve_user_body = Some (JStr "user") /\
  registered_role eve_plain_body = Some (JStr "user").
Proof. unfold differ_only_in. split_and!; computes. Qed.

Lemma register_role_follows_request_witness :
  getUserByUsername new_MemStorage (eve_admin_body !! "username") = None /\
  hashPassword (E := plain_external) (eve_admin_body !! "password") env0
    = Ok "$2a$10$abcdefghijklmnopqrstuusecret3" /\
  exists st' user,
    api_register (E := plain_external) new_MemStorage None
      (anonymous eve_admin_body) env0
      = (st', Some (JNum 1),
         {| status := 201; payload := PJson (safeUser user) |}) /\
    user !! "role" = Some (JStr "admin").
Proof.
  assert (getUserByUsername new_MemStorage (eve_admin_body !! "username") = None)
    as Hfree by computes.
  assert (hashPassword (E := plain_external) (eve_admin_body !! "password") env0
            = Ok "$2a$10$abcdefghijklmnopqrstuusecret3") as Hhash by computes.
  split_and!; [exact Hfree | exact Hhash |].
  destruct (register_role_follows_request (E := plain_external)
              new_MemStorage None (anonymous eve_admin_body) env0
              "$2a$10$abcdefghijklmnopqrstuusecret3" Hfree Hhash)
    as (st' & user & Hreg & _ & Hrole & _).
  exists st', user. split; [exact Hreg |]. rewrite Hrole. computes.
Defined.

(** [createUser] takes a candidate whose username is alice's: it
    returns, and the store holds two accounts of that name. *)
Lemma createUser_accepts_taken_username :
  getUserByUsername store_alice (second_alice !! "username")
    = Some (account store_alice 1) /\
  usernames (createUser store_alice second_alice 0).1
    = [Some (JStr "alice"); Some (JStr "alice")] /\
  userId (createUser store_alice second_alice 0).1 = userId store_alice + 1.
Proof. split_and!; computes. Qed.

Lemma register_conflict_or_create_witness :
  store_inv store_alice /\
  username_taken store_alice (alice_body !! "username") /\
  ~ username_taken store_alice (bob_body !! "username") /\
  api_register (E := plain_external) store_alice None (anonymous alice_body) env0
    = (store_alice, None, message 400 "Имя пользователя уже занято") /\
  exists st' user,
    api_register (E := plain_external) store_alice None (anonymous bob_body) env0
      = (st', Some (JNum 2),
         {| status := 201; payload := PJson (safeUser user) |}) /\
    user !! "id" = Some (JNum 2) /\
    getUser store_alice 2 = None /\
    user !! "role" = Some (JStr "user").
Proof.
  assert (store_inv store_alice) as Hinv.
  { apply (store_inv_createUser new_MemStorage
             (<["password" := JStr "$2a$10$abcdefghijklmnopqrstuusecret1"]> alice_body)
             (now env0)), store_inv_new. }
  assert (username_taken store_alice (alice_body !! "username")) as Htaken.
  { apply getUserByUsername_taken.
    assert (getUserByUsername store_alice (alice_body !! "username")
              = Some (account store_alice 1)) as -> by computes.
    discriminate. }
  assert (~ username_taken store_alice (bob_body !! "username")) as Hfree.
  { intros Hbob. apply getUserByUsername_taken in Hbob. apply Hbob. computes. }
  split_and!; [exact Hinv | exact Htaken | exact Hfree | |].
  - exact (proj1 (register_conflict_or_create (E := plain_external)
                    store_alice None (anonymous alice_body) env0 Hinv) Htaken).
  - assert (hashPassword (E := plain_external) (bob_body !! "password") env0
              = Ok "$2a$10$abcdefghijklmnopqrstuusecret2") as Hhash by computes.
    destruct (proj2 (register_conflict_or_create (E := plain_external)
                       store_alice None (anonymous bob_body) env0 Hinv)
                _ Hfree Hhash)
      as (st' & user & Hreg & _ & Hid & Hnew & _ & _ & _ & Hrole).
    exists st', user. split_and!; [exact Hreg | exact Hid | exact Hnew |].
    apply Hrole. computes.
Defined.

(** ** Response payloads *)

Lemma message_no_password (code : Z) (text : string) :
  no_password (payload (message code text)).
Proof. simpl. by apply lookup_singleton_ne. Qed.

Lemma gate_no_password `{E : External} (gate : Request -> option Response)
    (req : Request) (r : Response) :
  (gate = isAdmin \/ gate = isAuthenticated \/
   gate = validateRequest updateUserProfileSchema) ->
  gate req = Some r -> no_password (payload r).
Proof.
  intros [->| [->| ->]].
  - unfold isAdmin. repeat case_match; intros [= <-]; apply message_no_password.
  - unfold isAuthenticated. case_match; intros [= <-]; apply message_no_password.
  - unfold validateRequest. case_match; intros [= <-]. simpl.
    rewrite lookup_insert_ne by done. by apply lookup_singleton_ne.
Qed.

(** Closes a goal [no_password (payload r.2)] once [r] is a visible
    response. *)
Ltac payload_safe :=
  cbn [snd];
  first [ apply message_no_password
        | cbn; first [ apply safeUser_no_password | exact I ] ].

Section Responses.
Context {E : External}.

(** C4: whatever the store, the session, the request and the
    environment, the payload that the register, login, current-user,
    users-list and profile-update endpoints answer with has no
    [password] property: neither the object sent, nor any object of the
    array sent. *)
Theorem responses_hide_password st session req env :
  no_password (payload (api_register st session req env).2) /\
  no_password (payload (api_login st session req).2) /\
  no_password (payload (api_user st req).2) /\
  no_password (payload (api_users st req).2) /\
  no_password (payload (api_users_profile st req).2).
Proof.
  split_and!.
  - unfold api_register. repeat case_match; payload_safe.
  - unfold api_login. repeat case_match; payload_safe.
  - unfold api_user. case_match; payload_safe.
  - unfold api_users. destruct (isAdmin req) as [r|] eqn:Hgate; simpl.
    + eapply (gate_no_password isAdmin); eauto.
    + apply Forall_forall. intros o Ho.
      apply list_elem_of_fmap in Ho as (user & -> & _).
      apply safeUser_no_password.
  - unfold api_users_profile.
    destruct (isAuthenticated req) as [r|] eqn:Hauth; simpl.
    { eapply (gate_no_password isAuthenticated); eauto. }
    destruct (validateRequest updateUserProfileSchema req) as [r|] eqn:Hval; simpl.
    { eapply (gate_no_password (validateRequest updateUserProfileSchema)); eauto. }
    repeat case_match; payload_safe.
Qed.

End Responses.

(** ** Owner or administrator *)

(** The condition the handlers test is the rule of the design. *)
Lemma handler_test_is_rule (identity item : obj) :
  negb (strict_eq_opt (identity !! "role") (Some (JStr "admin"))) &&
  negb (strict_eq_opt (item !! "userId") (identity !! "id"))
  = negb (requireOwnerOrAdmin identity (item !! "userId")).
Proof.
  unfold requireOwnerOrAdmin.
  rewrite (strict_eq_opt_sym (item !! "userId")). by rewrite negb_orb.
Qed.

Lemma requireOwnerOrAdmin_spec (identity : obj) (owner : option jsval) :
  requireOwnerOrAdmin identity owner = true <->
  identity !! "role" = Some (JStr "admin") \/
  strict_eq_opt (identity !! "id") owner = true.
Proof.
  unfold requireOwnerOrAdmin. rewrite orb_true_iff.
  by rewrite strict_eq_JStr.
Qed.

Lemma gate_decides_denied st text (performed : MemStorage * Response) :
  gate_decides false st (st, message 403 text) performed.
Proof. by split_and!. Qed.

Lemma gate_decides_allowed st (performed : MemStorage * Response) :
  status performed.2 <> 403 -> gate_decides true st performed performed.
Proof. intros Hs. split_and!; [by split | done..]. Qed.

(** C5: for an authenticated caller and a news item or project that
    exists, the update and the delete handlers are decided by the
    owner-or-admin rule: they answer 403 exactly when the caller is
    neither an administrator nor the owner, a denial leaves the store as
    it was, and an allowed request is carried out by the storage. *)
Theorem owner_or_admin_decides st req env identity id :
  req_user req = Some identity ->
  params_id req = Some id ->
  (forall newsItem, getNewsById st id = Some newsItem ->
     let allowed := requireOwnerOrAdmin identity (newsItem !! "userId") in
     gate_decides allowed st (api_news_update st req env)
       ((updateNews st id (body req) (now env)).1,
        {| status := 200;
           payload := from_option PJson PNone
                        (updateNews st id (body req) (now env)).2 |}) /\
     gate_decides allowed st (api_news_delete st req)
       ((deleteNews st id).1, {| status := 204; payload := PNone |})) /\
  (forall project, getProjectById st id = Some project ->
     let allowed := requireOwnerOrAdmin identity (project !! "userId") in
     gate_decides allowed st (api_projects_update st req env)
       ((updateProject st id (body req) (now env)).1,
        {| status := 200;
           payload := from_option PJson PNone
                        (updateProject st id (body req) (now env)).2 |}) /\
     gate_decides allowed st (api_projects_delete st req)
       ((deleteProject st id).1, {| status := 204; payload := PNone |})).
Proof.
  intros Huser Hid. split.
  - intros item Hitem allowed. subst allowed.
    unfold api_news_update, api_news_delete, isAuthenticated.
    rewrite Huser, Hid, Hitem. cbn [default from_option Datatypes.id].
    rewrite handler_test_is_rule.
    destruct (requireOwnerOrAdmin identity (item !! "userId"));
      cbn [negb]; split; try apply gate_decides_denied.
    + destruct (updateNews _ _ _ _) as [st' r]. by apply gate_decides_allowed.
    + unfold deleteNews, JsMap.has. unfold getNewsById in Hitem.
      rewrite Hitem. by apply gate_decides_allowed.
  - intros item Hitem allowed. subst allowed.
    unfold api_projects_update, api_projects_delete, isAuthenticated.
    rewrite Huser, Hid, Hitem. cbn [default from_option Datatypes.id].
    rewrite handler_test_is_rule.
    destruct (requireOwnerOrAdmin identity (item !! "userId"));
      cbn [negb]; split; try apply gate_decides_denied.
    + destruct (updateProject _ _ _ _) as [st' r]. by apply gate_decides_allowed.
    + unfold deleteProject, JsMap.has. unfold getProjectById in Hitem.
      rewrite Hitem. by apply gate_decides_allowed.
Qed.

(** ** Login *)

Section Login.
Context {E : External}.

Lemma credential_body (req : Request) (field : string) (v : jsval) :
  body req !! field = Some v -> is_object v = false -> truthy v = true ->
  credential req field = Some v.
Proof.
  intros Hb Ho Ht. unfold credential, lookup. by rewrite Hb, Ho, Ht.
Qed.

Lemma comparePasswords_number (n : Z) (stored : option jsval) :
  comparePasswords (JNum n) stored = Err.
Proof.
  unfold comparePasswords.
  destruct (bcrypt_compare (JNum n) stored) as [same|] eqn:Hc; [|done].
  by destruct (bcrypt_compare_strings _ _ _ Hc) as [[s Hs] _].
Qed.

(** What the endpoint answers once the strategy has read the two
    credentials, by what the verify function reports. *)
Lemma api_login_verified st session req username password :
  credential req "username" = Some username ->
  credential req "password" = Some password ->
  truthy username = true -> truthy password = true ->
  api_login st session req =
    match localStrategy st username password with
    | Err => (st, session, next_error)
    | Ok None =>
        (st, session, message 401 "Неверное имя пользователя или пароль")
    | Ok (Some user) =>
        match serializeUser user with
        | Err => (st, session, next_error)
        | Ok id =>
            (st, Some id, {| status := 200; payload := PJson (safeUser user) |})
        end
    end.
Proof.
  intros Hu Hp Htu Htp. unfold api_login, passport_authenticate.
  by rewrite Hu, Hp, Htu, Htp.
Qed.

(** Where the library answers that the password does not match, the
    two failures do end the same way: an unknown username and a known
    one with such a password both get 401 with the one message, store
    and session untouched. *)
Lemma login_mismatch_is_uniform st session req1 req2
    username1 password1 username2 password2 user :
  credential req1 "username" = Some username1 ->
  credential req1 "password" = Some password1 ->
  credential req2 "username" = Some username2 ->
  credential req2 "password" = Some password2 ->
  getUserByUsername st (Some username1) = None ->
  getUserByUsername st (Some username2) = Some user ->
  comparePasswords password2 (user !! "password") = Ok false ->
  api_login st session req1
    = (st, session, message 401 "Неверное имя пользователя или пароль") /\
  api_login st session req2 = api_login st session req1.
Proof.
  intros Hu1 Hp1 Hu2 Hp2 Hunknown Hknown Hwrong.
  assert (forall req username password,
            credential req "username" = Some username ->
            credential req "password" = Some password ->
            localStrategy st username password = Ok None ->
            api_login st session req
              = (st, session, message 401 "Неверное имя пользователя или пароль"))
    as Hfail.
  { intros req username password Hu Hp Hs.
    unfold api_login, passport_authenticate. rewrite Hu, Hp.
    destruct (truthy username && truthy password); [by rewrite Hs | done]. }
  assert (localStrategy st username1 password1 = Ok None) as H1.
  { unfold localStrategy. by rewrite Hunknown. }
  assert (localStrategy st username2 password2 = Ok None) as H2.
  { unfold localStrategy. by rewrite Hknown, Hwrong. }
  split; [by eapply Hfail|].
  by rewrite (Hfail req1 username1 password1), (Hfail req2 username2 password2).
Qed.

(** C6 does not hold of the code: when the password sent is a number,
    which the library refuses to compare, a login under the username
    of an account is answered with the error response, status 500,
    while the same login under a username no account has is answered
    401 with the message for wrong credentials, because the verify
    function compares only once the account is found.  The two
    failures can be told apart by the caller. *)
Theorem login_error_reveals_username st session req1 req2
    name1 name2 (n : Z) user :
  n <> 0 -> name1 <> "" -> name2 <> "" ->
  body req1 !! "username" = Some (JStr name1) ->
  body req1 !! "password" = Some (JNum n) ->
  body req2 !! "username" = Some (JStr name2) ->
  body req2 !! "password" = Some (JNum n) ->
  getUserByUsername st (Some (JStr name1)) = None ->
  getUserByUsername st (Some (JStr name2)) = Some user ->
  api_login st session req1
    = (st, session, message 401 "Неверное имя пользователя или пароль") /\
  api_login st session req2 = (st, session, next_error) /\
  status (api_login st session req1).2 = 401 /\
  status (api_login st session req2).2 = 500.
Proof.
  intros Hn Hn1 Hn2 Hu1 Hp1 Hu2 Hp2 Hunknown Hknown.
  assert (truthy (JNum n) = true) as Htn.
  { simpl. by destruct (Z.eqb_spec n 0). }
  assert (forall name, name <> "" -> truthy (JStr name) = true) as Hts.
  { intros name Hne. simpl. by destruct (String.eqb_spec name ""). }
  assert (api_login st session req1
          = (st, session, message 401 "Неверное имя пользователя или пароль"))
    as H1.
  { rewrite (api_login_verified st session req1 (JStr name1) (JNum n));
      auto using credential_body.
    unfold localStrategy. by rewrite Hunknown. }
  assert (api_login st session req2 = (st, session, next_error)) as H2.
  { rewrite (api_login_verified st session req2 (JStr name2) (JNum n));
      auto using credential_body.
    unfold localStrategy. by rewrite Hknown, comparePasswords_number. }
  rewrite H1, H2. by split_and!.
Qed.

End Login.

(** ** Profile update *)

(** C7: a profile patch whose properties are among username, avatar and
    bio, applied to a stored account, gives the account with exactly the
    patch's properties replaced: every property the patch has is taken
    from it, every other property (role and password among them) is as
    before, the other accounts, tables and counters are as before.  For
    an id no account has, the result is absent and the store is the
    same. *)
Theorem updateUserProfile_frame st id (profile : obj) :
  dom profile ⊆ ({[ "username"; "avatar"; "bio" ]} : gset string) ->
  (getUser st id = None -> updateUserProfile st id profile = (st, None)) /\
  (forall user, getUser st id = Some user ->
     exists st' updated,
       updateUserProfile st id profile = (st', Some updated) /\
       getUser st' id = Some updated /\
       (forall k v, profile !! k = Some v -> updated !! k = Some v) /\
       (forall k, profile !! k = None -> updated !! k = user !! k) /\
       updated !! "role" = user !! "role" /\
       updated !! "password" = user !! "password" /\
       updated !! "id" = user !! "id" /\
       (forall j, j <> id -> getUser st' j = getUser st j) /\
       JsMap.keys (users st') = JsMap.keys (users st) /\
       newsItems st' = newsItems st /\
       projectItems st' = projectItems st /\
       (userId st', newsId st', projectId st')
         = (userId st, newsId st, projectId st)).
Proof.
  intros Hdom.
  assert (forall k, k ∉ ["username"; "avatar"; "bio"] -> profile !! k = None)
    as Hother.
  { intros k Hk. apply not_elem_of_dom. intros Hin. apply Hdom in Hin.
    apply Hk. rewrite !elem_of_union, !elem_of_singleton in Hin.
    rewrite !elem_of_cons. tauto. }
  assert (forall k, k <> "username" -> k <> "avatar" -> k <> "bio" ->
                    profile !! k = None) as Hkept.
  { intros k ? ? ?. apply Hother. rewrite !not_elem_of_cons.
    split_and!; [done..|]. apply not_elem_of_nil. }
  unfold getUser, updateUserProfile. split.
  - by intros ->.
  - intros user Hget. rewrite Hget.
    eexists _, _. split_and!; try reflexivity; simpl.
    + apply get_set_eq.
    + intros k v Hk. by apply lookup_union_Some_l.
    + intros k Hk. by apply lookup_union_r.
    + apply lookup_union_r, Hkept; discriminate.
    + apply lookup_union_r, Hkept; discriminate.
    + apply lookup_union_r, Hkept; discriminate.
    + intros j Hj. by apply get_set_ne.
    + apply keys_set_present. by eapply get_Some_keys.
Qed.

(** ** The admin gate *)

Lemma admin_gated_401 (req : Request) (text : string) :
  req_user req = None -> admin_gated req (message 401 text).
Proof.
  intros Hnone. split; [by split|]. split; [discriminate|].
  intros (user & Hu & _). congruence.
Qed.

Lemma admin_gated_403 (req : Request) (user : obj) (text : string) :
  req_user req = Some user -> user !! "role" <> Some (JStr "admin") ->
  admin_gated req (message 403 text).
Proof.
  intros Hu Hrole. split; [split; [discriminate | congruence]|].
  split; [|done]. intros _. by exists user.
Qed.

Lemma admin_gated_pass (req : Request) (user : obj) (r : Response) :
  req_user req = Some user -> user !! "role" = Some (JStr "admin") ->
  status r <> 401 -> status r <> 403 -> admin_gated req r.
Proof.
  intros Hu Hrole H401 H403. split; [split; [done | congruence]|].
  split; [done|]. intros (user' & Hu' & Hrole'). congruence.
Qed.

Section AdminGate.
Context {E : External}.

(** What [isAdmin] does, by the caller. *)
Lemma isAdmin_cases (req : Request) :
  match req_user req with
  | None => isAdmin req = Some (message 401 "Необходима авторизация")
  | Some user =>
      (user !! "role" = Some (JStr "admin") /\ isAdmin req = None) \/
      (user !! "role" <> Some (JStr "admin") /\
       isAdmin req = Some (message 403 "Необходимы права администратора"))
  end.
Proof.
  unfold isAdmin. destruct (req_user req) as [user|]; [|done].
  destruct (strict_eq_opt (user !! "role") (Some (JStr "admin"))) eqn:Hr; simpl.
  - left. by apply strict_eq_JStr in Hr.
  - right. split; [|done]. intros Hadmin. apply strict_eq_JStr in Hadmin.
    congruence.
Qed.

(** Closes [admin_gated req (route).2] for a route that starts with
    [isAdmin]. *)
Ltac through_gate req :=
  pose proof (isAdmin_cases req) as Hgate;
  destruct (req_user req) as [user|] eqn:Huser;
  [ destruct Hgate as [[Hrole ->]|[Hrole ->]];
    [ | by eapply admin_gated_403 ]
  | rewrite Hgate; by apply admin_gated_401 ].

(** C9: on every admin-gated route (upload, users list, news creation,
    project creation) the answer is 401 exactly when the caller is not
    authenticated and 403 exactly when the caller is authenticated with
    a role other than admin; [isAdmin] itself ends the request with one
    of the two or lets it through, and it lets through administrators
    only. *)
Theorem admin_gate_authentication_first st req env :
  match isAdmin req with
  | Some r => admin_gated req r /\ (status r = 401 \/ status r = 403)
  | None => exists user : obj,
      req_user req = Some user /\ user !! "role" = Some (JStr "admin")
  end /\
  admin_gated req (api_upload st req env).2 /\
  admin_gated req (api_users st req).2 /\
  admin_gated req (api_news_create st req env).2 /\
  admin_gated req (api_projects_create st req env).2.
Proof.
  split_and!.
  - pose proof (isAdmin_cases req) as Hgate.
    destruct (req_user req) as [user|] eqn:Huser.
    + destruct Hgate as [[Hrole ->]|[Hrole ->]].
      * by exists user.
      * split; [by eapply admin_gated_403 | by right].
    + rewrite Hgate. split; [by apply admin_gated_401 | by left].
  - unfold api_upload. through_gate req.
    destruct (uploaded env) as [[[|file files]|]|];
      by eapply admin_gated_pass.
  - unfold api_users. through_gate req. by eapply admin_gated_pass.
  - unfold api_news_create. through_gate req.
    unfold validateRequest.
    destruct (zod_accepts insertNewsSchema (body req));
      by eapply admin_gated_pass.
  - unfold api_projects_create. through_gate req.
    unfold validateRequest.
    destruct (zod_accepts insertProjectSchema (body req));
      by eapply admin_gated_pass.
Qed.

End AdminGate.

(** ** Creation of news and projects *)

Lemma createNews_userId st newsItem now :
  (createNews st newsItem now).2 !! "userId" = newsItem !! "userId".
Proof. simpl. by rewrite !lookup_insert_ne. Qed.

Lemma createProject_userId st projectItem now :
  (createProject st projectItem now).2 !! "userId" = projectItem !! "userId".
Proof. simpl. by rewrite !lookup_insert_ne. Qed.

Lemma createNews_stored st newsItem now :
  getNewsById (createNews st newsItem now).1 (newsId st)
  = Some (createNews st newsItem now).2.
Proof. unfold getNewsById. simpl. apply get_set_eq. Qed.

Lemma createProject_stored st projectItem now :
  getProjectById (createProject st projectItem now).1 (projectId st)
  = Some (createProject st projectItem now).2.
Proof. unfold getProjectById. simpl. apply get_set_eq. Qed.

Section Creation.
Context {E : External}.

(** An administrator's request that passes the schema creates the
    item out of the body with [userId] set to the caller's id. *)
Lemma api_news_create_admin st req env user :
  req_user req = Some user ->
  user !! "role" = Some (JStr "admin") ->
  zod_accepts insertNewsSchema (body req) = true ->
  api_news_create st req env =
    ((createNews st (set_prop "userId" (user !! "id") (body req)) (now env)).1,
     {| status := 201;
        payload := PJson
          (createNews st (set_prop "userId" (user !! "id") (body req)) (now env)).2 |}).
Proof.
  intros Hu Hrole Hok. unfold api_news_create, isAdmin, validateRequest.
  rewrite Hu, Hok. apply strict_eq_JStr in Hrole. by rewrite Hrole.
Qed.

Lemma api_projects_create_admin st req env user :
  req_user req = Some user ->
  user !! "role" = Some (JStr "admin") ->
  zod_accepts insertProjectSchema (body req) = true ->
  api_projects_create st req env =
    ((createProject st (set_prop "userId" (user !! "id") (body req)) (now env)).1,
     {| status := 201;
        payload := PJson
          (createProject st (set_prop "userId" (user !! "id") (body req)) (now env)).2 |}).
Proof.
  intros Hu Hrole Hok. unfold api_projects_create, isAdmin, validateRequest.
  rewrite Hu, Hok. apply strict_eq_JStr in Hrole. by rewrite Hrole.
Qed.

(** C10: a creation request that goes through (the caller is an
    administrator, the body passes the schema) stores a news item,
    respectively a project, whose [userId] is the caller's id, whatever
    [userId] the body carries; a second request of the same caller whose
    body differs only in [userId] has the very same outcome. *)
Theorem created_resource_owner st req env user :
  req_user req = Some user ->
  user !! "role" = Some (JStr "admin") ->
  (zod_accepts insertNewsSchema (body req) = true ->
   exists st' created,
     api_news_create st req env
       = (st', {| status := 201; payload := PJson created |}) /\
     getNewsById st' (newsId st) = Some created /\
     created !! "userId" = user !! "id" /\
     forall req2 : Request,
       req_user req2 = Some user ->
       differ_only_in "userId" (body req) (body req2) ->
       zod_accepts insertNewsSchema (body req2) = true ->
       api_news_create st req2 env = api_news_create st req env) /\
  (zod_accepts insertProjectSchema (body req) = true ->
   exists st' created,
     api_projects_create st req env
       = (st', {| status := 201; payload := PJson created |}) /\
     getProjectById st' (projectId st) = Some created /\
     created !! "userId" = user !! "id" /\
     forall req2 : Request,
       req_user req2 = Some user ->
       differ_only_in "userId" (body req) (body req2) ->
       zod_accepts insertProjectSchema (body req2) = true ->
       api_projects_create st req2 env = api_projects_create st req env).
Proof.
  intros Hu Hrole. split; intros Hok; eexists _, _; split_and!.
  - by apply api_news_create_admin.
  - apply createNews_stored.
  - by rewrite createNews_userId, set_prop_lookup.
  - intros req2 Hu2 Hd Hok2.
    rewrite (api_news_create_admin st req env user) by done.
    rewrite (api_news_create_admin st req2 env user) by done.
    by rewrite (set_prop_differ_only_in _ _ _ _ Hd).
  - by apply api_projects_create_admin.
  - apply createProject_stored.
  - by rewrite createProject_userId, set_prop_lookup.
  - intros req2 Hu2 Hd Hok2.
    rewrite (api_projects_create_admin st req env user) by done.
    rewrite (api_projects_create_admin st req2 env user) by done.
    by rewrite (set_prop_differ_only_in _ _ _ _ Hd).
Qed.

End Creation.

(** * The claims on concrete requests *)

(** C3: the stored usernames do not stay distinct.  Alice and bob are
    registered, with distinct names; bob, authenticated, sends the
    profile patch [{ username: "alice" }]; the patch passes the schema,
    the endpoint answers 200, and the store holds two accounts named
    alice. *)
Theorem profile_rename_breaks_uniqueness :
  NoDup (usernames store_alice_bob) /\
  zod_accepts (updateUserProfileSchema (E := plain_external))
    (body bob_takes_alice) = true /\
  status (api_users_profile (E := plain_external)
            store_alice_bob bob_takes_alice).2 = 200 /\
  usernames store_renamed = [Some (JStr "alice"); Some (JStr "alice")] /\
  ~ NoDup (usernames store_renamed).
Proof.
  split_and!.
  - assert (usernames store_alice_bob = [Some (JStr "alice"); Some (JStr "bob")])
      as -> by (vm_compute; reflexivity).
    apply NoDup_cons. split; [|apply NoDup_singleton].
    intros Hin. apply list_elem_of_singleton in Hin. discriminate.
  - vm_compute. reflexivity.
  - vm_compute. reflexivity.
  - vm_compute. reflexivity.
  - assert (usernames store_renamed = [Some (JStr "alice"); Some (JStr "alice")])
      as -> by (vm_compute; reflexivity).
    intros Hnd. apply NoDup_cons in Hnd as [Hnot _].
    apply Hnot, list_elem_of_singleton. reflexivity.
Qed.

(** The profile endpoint hands the body to the storage as it came: a
    patch with a [role] property passes the schema and changes the
    role. *)
Example profile_endpoint_takes_role :
  zod_accepts (updateUserProfileSchema (E := plain_external))
    {[ "role" := JStr "admin" ]} = true /\
  (getUser store_alice_bob 2 ≫= fun user : obj => user !! "role")
    = Some (JStr "user") /\
  (getUser (api_users_profile (E := plain_external) store_alice_bob
              (as_bob {[ "role" := JStr "admin" ]} None)).1 2
     ≫= fun user : obj => user !! "role")
    = Some (JStr "admin").
Proof. split_and!; vm_compute; reflexivity. Qed.

(** The matrix of callers and news items of the site: the owner on her
    item and on another's, another user on both items, the
    administrator on her item and on another's. *)
Example owner_or_admin_matrix :
  map (fun '(id, item) => update_status id item)
      [(1, 1); (1, 2); (2, 1); (2, 2); (3, 2); (3, 1)]
  = [200; 403; 403; 403; 200; 200].
Proof. vm_compute. reflexivity. Qed.

Lemma owner_or_admin_decides_witness :
  req_user (caller 1 ∅ (Some 1)) = Some (account site_store 1) /\
  req_user (caller 2 ∅ (Some 1)) = Some (account site_store 2) /\
  getNewsById site_store 1 = Some first_news /\
  requireOwnerOrAdmin (account site_store 1) (first_news !! "userId") = true /\
  requireOwnerOrAdmin (account site_store 2) (first_news !! "userId") = false /\
  status (api_news_update site_store (caller 1 ∅ (Some 1)) env0).2 = 200 /\
  status (api_news_delete site_store (caller 2 ∅ (Some 1))).2 = 403 /\
  (api_news_delete site_store (caller 2 ∅ (Some 1))).1 = site_store.
Proof.
  assert (req_user (caller 1 ∅ (Some 1)) = Some (account site_store 1))
    as Halice by computes.
  assert (req_user (caller 2 ∅ (Some 1)) = Some (account site_store 2))
    as Hbob by computes.
  assert (getNewsById site_store 1 = Some first_news) as Hitem by computes.
  assert (requireOwnerOrAdmin (account site_store 1) (first_news !! "userId") = true)
    as Hown by computes.
  assert (requireOwnerOrAdmin (account site_store 2) (first_news !! "userId") = false)
    as Hother by computes.
  split_and!; [exact Halice | exact Hbob | exact Hitem | exact Hown
              | exact Hother | | |].
  - destruct (owner_or_admin_decides site_store (caller 1 ∅ (Some 1)) env0
                (account site_store 1) 1 Halice eq_refl) as [Hnews _].
    destruct (Hnews first_news Hitem) as [(_ & _ & Hdone) _].
    rewrite (Hdone Hown). reflexivity.
  - destruct (owner_or_admin_decides site_store (caller 2 ∅ (Some 1)) env0
                (account site_store 2) 1 Hbob eq_refl) as [Hnews _].
    destruct (Hnews first_news Hitem) as [_ (Hstatus & _ & _)].
    apply Hstatus, Hother.
  - destruct (owner_or_admin_decides site_store (caller 2 ∅ (Some 1)) env0
                (account site_store 2) 1 Hbob eq_refl) as [Hnews _].
    destruct (Hnews first_news Hitem) as [_ (_ & Hkept & _)].
    apply Hkept, Hother.
Defined.

Lemma login_error_reveals_username_witness :
  getUserByUsername store_alice (Some (JStr "mallory")) = None /\
  getUserByUsername store_alice (Some (JStr "alice"))
    = Some (account store_alice 1) /\
  status (api_login (E := plain_external) store_alice None
            login_unknown_number).2 = 401 /\
  status (api_login (E := plain_external) store_alice None
            login_known_number).2 = 500.
Proof.
  assert (getUserByUsername store_alice (Some (JStr "mallory")) = None)
    as Hunknown by computes.
  assert (getUserByUsername store_alice (Some (JStr "alice"))
            = Some (account store_alice 1)) as Hknown by computes.
  assert (12345 <> 0) as Hn by discriminate.
  assert ("mallory" <> "") as Hn1 by discriminate.
  assert ("alice" <> "") as Hn2 by discriminate.
  destruct (login_error_reveals_username (E := plain_external) store_alice None
              login_unknown_number login_known_number "mallory" "alice" 12345
              (account store_alice 1) Hn Hn1 Hn2 eq_refl eq_refl eq_refl eq_refl
              Hunknown Hknown)
    as (_ & _ & H401 & H500).
  split_and!; [exact Hunknown | exact Hknown | exact H401 | exact H500].
Defined.

(** With a string that is not the password, the same two logins are
    answered alike. *)
Example login_mismatch_is_uniform_example :
  api_login (E := plain_external) store_alice None login_wrong
  = api_login (E := plain_external) store_alice None login_unknown.
Proof.
  apply (login_mismatch_is_uniform (E := plain_external) store_alice None
           login_unknown login_wrong (JStr "mallory") (JStr "guess")
           (JStr "alice") (JStr "wrong") (account store_alice 1)); computes.
Qed.

Lemma updateUserProfile_frame_witness :
  dom ({[ "bio" := JStr "hello" ]} : obj)
    ⊆ ({[ "username"; "avatar"; "bio" ]} : gset string) /\
  getUser store_alice_bob 7 = None /\
  getUser store_alice_bob 2 = Some (account store_alice_bob 2) /\
  updateUserProfile store_alice_bob 7 {[ "bio" := JStr "hello" ]}
    = (store_alice_bob, None) /\
  exists st' updated,
    updateUserProfile store_alice_bob 2 {[ "bio" := JStr "hello" ]}
      = (st', Some updated) /\
    updated !! "bio" = Some (JStr "hello") /\
    updated !! "role" = Some (JStr "user") /\
    updated !! "username" = Some (JStr "bob").
Proof.
  assert (dom ({[ "bio" := JStr "hello" ]} : obj)
            ⊆ ({[ "username"; "avatar"; "bio" ]} : gset string)) as Hdom.
  { rewrite dom_singleton_L. intros k Hk. apply elem_of_singleton in Hk as ->.
    rewrite !elem_of_union, !elem_of_singleton. by right. }
  assert (getUser store_alice_bob 7 = None) as Hnone by computes.
  assert (getUser store_alice_bob 2 = Some (account store_alice_bob 2))
    as Hbob by computes.
  split_and!; [exact Hdom | exact Hnone | exact Hbob | |].
  - exact (proj1 (updateUserProfile_frame store_alice_bob 7 _ Hdom) Hnone).
  - destruct (proj2 (updateUserProfile_frame store_alice_bob 2 _ Hdom) _ Hbob)
      as (st' & updated & Hupd & _ & Hset & Hkept & Hr & _).
    exists st', updated. split_and!; [exact Hupd | | |].
    + apply Hset. computes.
    + rewrite Hr. computes.
    + rewrite Hkept; computes.
Defined.

Lemma created_resource_owner_witness :
  req_user eve_posts_as_alice = Some (account site_store 3) /\
  account site_store 3 !! "role" = Some (JStr "admin") /\
  differ_only_in "userId" (body eve_posts_as_alice) (body eve_posts_as_bob) /\
  (exists st' created,
     api_news_create (E := plain_external) site_store eve_posts_as_alice env0
       = (st', {| status := 201; payload := PJson created |}) /\
     created !! "userId" = Some (JNum 3)) /\
  api_news_create (E := plain_external) site_store eve_posts_as_bob env0
    = api_news_create (E := plain_external) site_store eve_posts_as_alice env0.
Proof.
  assert (req_user eve_posts_as_alice = Some (account site_store 3))
    as Heve by computes.
  assert (req_user eve_posts_as_bob = Some (account site_store 3))
    as Heve' by computes.
  assert (account site_store 3 !! "role" = Some (JStr "admin"))
    as Hrole by computes.
  assert (differ_only_in "userId" (body eve_posts_as_alice) (body eve_posts_as_bob))
    as Hd by (unfold differ_only_in; computes).
  destruct (proj1 (created_resource_owner (E := plain_external) site_store
                     eve_posts_as_alice env0 _ Heve Hrole) eq_refl)
    as (st' & created & Hout & _ & Howner & Hsame).
  split_and!; [exact Heve | exact Hrole | exact Hd | |].
  - exists st', created. split; [exact Hout |]. rewrite Howner. computes.
  - apply Hsame; [exact Heve' | exact Hd | reflexivity].
Defined.

(** * Further properties *)

(** ** Tables, continued *)

Section JsMapMore.
Context {V : Type}.
Implicit Types (m : list (Z * V)) (k : Z) (v : V).

Lemma get_remove_ne k k' m :
  k <> k' -> JsMap.get k' (JsMap.remove k m) = JsMap.get k' m.
Proof.
  intros Hne. induction m as [|[k0 v0] m IH]; simpl; [done|].
  destruct (Z.eqb_spec k k0) as [->|Hk]; simpl.
  - destruct (Z.eqb_spec k' k0); [congruence | done].
  - by rewrite IH.
Qed.

Lemma get_remove_eq k m :
  NoDup (JsMap.keys m) -> JsMap.get k (JsMap.remove k m) = None.
Proof.
  induction m as [|[k0 v0] m IH]; simpl; [done|].
  intros Hnd. apply NoDup_cons in Hnd as [Hnot Hnd].
  destruct (Z.eqb_spec k k0) as [->|Hk]; simpl.
  - by apply get_None_keys.
  - destruct (Z.eqb_spec k k0); [done | by apply IH].
Qed.

Lemma remove_absent k m : JsMap.get k m = None -> JsMap.remove k m = m.
Proof.
  induction m as [|[k0 v0] m IH]; simpl; [done|].
  destruct (Z.eqb k k0); [discriminate|]. intros H. by rewrite IH.
Qed.

Lemma values_set_fresh k v m :
  JsMap.get k m = None ->
  JsMap.values (JsMap.set k v m) = (JsMap.values m ++ [v])%list.
Proof.
  intros H. rewrite (set_fresh _ _ _ H). unfold JsMap.values.
  by rewrite map_app.
Qed.

(** A value of a table with distinct keys is found under some key. *)
Lemma values_get v m :
  NoDup (JsMap.keys m) -> v ∈ JsMap.values m ->
  exists k, JsMap.get k m = Some v.
Proof.
  induction m as [|[k0 v0] m IH]; simpl.
  - intros _ H. by apply elem_of_nil in H.
  - intros Hnd Hin. apply NoDup_cons in Hnd as [Hnot Hnd].
    apply elem_of_cons in Hin as [->|Hin].
    + exists k0. by rewrite Z.eqb_refl.
    + destruct (IH Hnd Hin) as [k Hk]. exists k.
      destruct (Z.eqb_spec k k0) as [->|]; [|done].
      apply get_Some_keys in Hk. done.
Qed.
End JsMapMore.

Lemma find_snoc {A : Type} (p : A -> bool) (l : list A) (x : A) :
  find p l = None ->
  find p (l ++ [x])%list = if p x then Some x else None.
Proof.
  induction l as [|y l IH]; simpl; [done|].
  destruct (p y); [discriminate | done].
Qed.

Lemma strict_eq_opt_JStr_refl (s : string) :
  strict_eq_opt (Some (JStr s)) (Some (JStr s)) = true.
Proof. by apply strict_eq_JStr. Qed.

(** ** Identifiers *)

(** X1: in a store built by the storage operations the next counter
    value of each table is the key of no entry, and an identifier that
    was deleted is not handed out again: after deleting a news item (a
    project) and creating another, the old identifier finds nothing. *)
Theorem ids_never_reused st :
  reachable st ->
  (getUser st (userId st) = None /\
   getNewsById st (newsId st) = None /\
   getProjectById st (projectId st) = None) /\
  (forall id item now,
     is_Some (getNewsById st id) ->
     getNewsById (createNews (deleteNews st id).1 item now).1 id = None) /\
  (forall id item now,
     is_Some (getProjectById st id) ->
     getProjectById (createProject (deleteProject st id).1 item now).1 id = None).
Proof.
  intros Hr. destruct (reachable_store_inv st Hr) as (Hu & Hn & Hp).
  split_and!; try by apply table_inv_fresh.
  - intros id item now [old Hold]. unfold getNewsById in *. simpl.
    destruct Hn as (_ & Hnd & Hlt).
    assert (id <> newsId st) as Hne.
    { apply get_Some_keys in Hold. rewrite Forall_forall in Hlt.
      specialize (Hlt _ Hold). lia. }
    rewrite get_set_ne by done. by apply get_remove_eq.
  - intros id item now [old Hold]. unfold getProjectById in *. simpl.
    destruct Hp as (_ & Hnd & Hlt).
    assert (id <> projectId st) as Hne.
    { apply get_Some_keys in Hold. rewrite Forall_forall in Hlt.
      specialize (Hlt _ Hold). lia. }
    rewrite get_set_ne by done. by apply get_remove_eq.
Qed.

Lemma ids_never_reused_witness :
  reachable store_one_each /\
  getNewsById store_one_each (newsId store_one_each) = None /\
  getNewsById
    (createNews (deleteNews store_one_each 1).1 (item_of 2) 7).1 1 = None.
Proof.
  assert (reachable store_one_each) as Hr.
  { apply reach_createProject, reach_createNews, reach_new. }
  destruct (ids_never_reused store_one_each Hr) as ((_ & Hnews & _) & Hdel & _).
  split_and!; [exact Hr | exact Hnews |].
  apply Hdel. exists (default ∅ (getNewsById store_one_each 1)). computes.
Defined.

(** ** Registration, continued *)

Lemma createUser_users st insertUser now :
  store_inv st ->
  getAllUsers (createUser st insertUser now).1
  = (getAllUsers st ++ [(createUser st insertUser now).2])%list.
Proof.
  intros (Hu & _). unfold getAllUsers. simpl.
  apply values_set_fresh. by apply table_inv_fresh.
Qed.

(** A created account is found by its username when that was free. *)
Lemma createUser_found st insertUser now name :
  store_inv st ->
  insertUser !! "username" = Some (JStr name) ->
  getUserByUsername st (Some (JStr name)) = None ->
  getUserByUsername (createUser st insertUser now).1 (Some (JStr name))
  = Some (createUser st insertUser now).2.
Proof.
  intros Hinv Hname Hfree.
  assert ((createUser st insertUser now).2 !! "username" = Some (JStr name))
    as Hstored.
  { rewrite createUser_other; [done|].
    rewrite !not_elem_of_cons. split_and!; [done..|]. apply not_elem_of_nil. }
  unfold getUserByUsername in *.
  change (JsMap.values (users (createUser st insertUser now).1))
    with (getAllUsers (createUser st insertUser now).1).
  rewrite createUser_users by done. unfold getAllUsers.
  rewrite find_snoc by exact Hfree.
  by rewrite Hstored, strict_eq_opt_JStr_refl.
Qed.

Section RegistrationMore.
Context {E : External}.


(** X3: the session that a registration opens resolves to the account
    just created, and the current-user endpoint then answers 200 with
    the payload the registration answered with. *)
Theorem register_session_resolves st session req env hash :
  getUserByUsername st (body req !! "username") = None ->
  hashPassword (body req !! "password") env = Ok hash ->
  exists st' session' user,
    api_register st session req env
      = (st', session', {| status := 201; payload := PJson (safeUser user) |}) /\
    deserializeUser st' session' = Some user /\
    forall b q id,
      api_user st' {| req_user := deserializeUser st' session';
                      body := b; query := q; params_id := id |}
      = (st', {| status := 200; payload := PJson (safeUser user) |}).
Proof.
  intros Hfree Hhash.
  exists (createUser st (<["password" := JStr hash]> (body req)) (now env)).1,
         (Some (JNum (userId st))),
         (createUser st (<["password" := JStr hash]> (body req)) (now env)).2.
  assert (deserializeUser
            (createUser st (<["password" := JStr hash]> (body req)) (now env)).1
            (Some (JNum (userId st)))
          = Some (createUser st (<["password" := JStr hash]> (body req)) (now env)).2)
    as Hres by apply createUser_stored.
  split_and!.
  - by apply api_register_fresh.
  - exact Hres.
  - intros b q id. unfold api_user. cbn [req_user]. by rewrite Hres.
Qed.


End RegistrationMore.

Lemma createUser_differ_overwritten st u1 u2 now (k : string) :
  k ∈ ["id"; "avatar"; "bio"; "createdAt"] ->
  differ_only_in k u1 u2 ->
  createUser st u1 now = createUser st u2 now.
Proof.
  intros Hk Hd.
  assert (k = "id" \/ k = "avatar" \/ k = "bio" \/ k = "createdAt") as Hk'.
  { rewrite !elem_of_cons in Hk.
    destruct Hk as [?|[?|[?|[?|Hnil]]]]; auto. by apply elem_of_nil in Hnil. }
  assert (u1 !! "role" = u2 !! "role") as Hrole.
  { apply (differ_only_in_lookup k); [done|].
    intros <-. destruct Hk' as [?|[?|[?|?]]]; discriminate. }
  assert (forall j : string,
            j <> "createdAt" -> j <> "bio" -> j <> "avatar" -> j <> "id" ->
            u1 !! j = u2 !! j) as Hrest.
  { intros j ? ? ? ?. apply (differ_only_in_lookup k); [done|].
    intros ->. destruct Hk' as [?|[?|[?|?]]]; done. }
  assert ((createUser st u1 now).2 = (createUser st u2 now).2) as Huser.
  { apply map_eq. intros j. simpl. rewrite Hrole, !lookup_insert.
    repeat case_decide; try done.
    rewrite !lookup_delete_ne by done. apply Hrest; congruence. }
  unfold createUser in *. simpl in Huser. by rewrite Huser.
Qed.

Lemma usernames_createUser st insertUser now :
  store_inv st ->
  usernames (createUser st insertUser now).1
  = (usernames st ++ [insertUser !! "username"])%list.
Proof.
  intros Hinv. unfold usernames. rewrite createUser_users by done.
  rewrite map_app. simpl map at 2. f_equal. f_equal.
  apply (createUser_other st insertUser now "username").
  rewrite !not_elem_of_cons. split_and!; [done..|]. apply not_elem_of_nil.
Qed.

Section RegistrationGuards.
Context {E : External}.

(** X5: whatever a registration body says about id, avatar, bio or
    createdAt is of no consequence: two requests that differ only in
    one of these properties have the same outcome (the server sets all
    four itself). *)
Theorem register_ignores_client_fields st session req1 req2 env (k : string) :
  k ∈ ["id"; "avatar"; "bio"; "createdAt"] ->
  differ_only_in k (body req1) (body req2) ->
  api_register st session req1 env = api_register st session req2 env.
Proof.
  intros Hk Hd.
  assert (forall j : string, j ∉ ["id"; "avatar"; "bio"; "createdAt"] ->
            body req1 !! j = body req2 !! j) as Hsame.
  { intros j Hj. apply (differ_only_in_lookup k); [done|]. by intros ->. }
  unfold api_register.
  rewrite (Hsame "username"), (Hsame "password").
  2,3: rewrite !not_elem_of_cons; split_and!; [done..|]; apply not_elem_of_nil.
  destruct (getUserByUsername st (body req2 !! "username")); [done|].
  destruct (hashPassword (body req2 !! "password") env) as [hash|]; [|done].
  by rewrite (createUser_differ_overwritten st
                (<["password" := JStr hash]> (body req1))
                (<["password" := JStr hash]> (body req2)) (now env) k Hk
                (differ_only_in_insert k "password" (JStr hash) _ _ Hd)).
Qed.

(** The handler is its guard followed, when the guard lets the
    request through, by the part after the wait. *)
Lemma api_register_phases st session req env :
  api_register st session req env =
    match register_guard st req with
    | Some r => (st, session, r)
    | None => register_resume st session req env
    end.
Proof.
  unfold api_register, register_guard, register_resume.
  by destruct (getUserByUsername st (body req !! "username")).
Qed.

Lemma register_resume_created st session req env hash :
  hashPassword (body req !! "password") env = Ok hash ->
  register_resume st session req env =
    ((createUser st (<["password" := JStr hash]> (body req)) (now env)).1,
     Some (JNum (userId st)),
     {| status := 201;
        payload := PJson (safeUser
          (createUser st (<["password" := JStr hash]> (body req)) (now env)).2) |}).
Proof.
  intros Hhash. unfold register_resume. rewrite Hhash.
  pose proof (serializeUser_created st (<["password" := JStr hash]> (body req))
                (now env)) as Hs.
  destruct (createUser _ _ _) as [st' user]. simpl in Hs |- *. by rewrite Hs.
Qed.

(** X6: the username check of a registration holds only until the
    handler waits for the digest.  Of two registrations under one free
    username, the second is answered 400 when it starts after the
    first has finished; but when both pass the guard before either
    resumes, both are answered 201 and the store then lists the
    username twice. *)
Theorem register_overlap_duplicates_username
    st session1 session2 req1 req2 env1 env2 name hash1 hash2 :
  store_inv st ->
  body req1 !! "username" = Some (JStr name) ->
  body req2 !! "username" = Some (JStr name) ->
  getUserByUsername st (Some (JStr name)) = None ->
  hashPassword (body req1 !! "password") env1 = Ok hash1 ->
  hashPassword (body req2 !! "password") env2 = Ok hash2 ->
  register_guard st req1 = None /\
  register_guard st req2 = None /\
  status (register_resume st session1 req1 env1).2 = 201 /\
  status (register_resume (register_resume st session1 req1 env1).1.1
            session2 req2 env2).2 = 201 /\
  usernames (register_resume (register_resume st session1 req1 env1).1.1
               session2 req2 env2).1.1
    = (usernames st ++ [Some (JStr name); Some (JStr name)])%list /\
  ~ NoDup (usernames (register_resume (register_resume st session1 req1 env1).1.1
                        session2 req2 env2).1.1) /\
  api_register (api_register st session1 req1 env1).1.1 session2 req2 env2
    = ((api_register st session1 req1 env1).1.1, session2,
       message 400 "Имя пользователя уже занято").
Proof.
  intros Hinv Hn1 Hn2 Hfree Hh1 Hh2.
  assert (register_guard st req1 = None) as Hg1.
  { unfold register_guard. by rewrite Hn1, Hfree. }
  assert (register_guard st req2 = None) as Hg2.
  { unfold register_guard. by rewrite Hn2, Hfree. }
  rewrite (api_register_phases st session1 req1 env1), Hg1.
  rewrite (register_resume_created st session1 req1 env1 hash1 Hh1).
  cbn [fst snd status].
  set (u1 := <["password" := JStr hash1]> (body req1) : obj).
  set (st1 := (createUser st u1 (now env1)).1).
  assert (store_inv st1) as Hinv1 by (by apply store_inv_createUser).
  assert (u1 !! "username" = Some (JStr name)) as Hu1.
  { unfold u1. by rewrite lookup_insert_ne. }
  rewrite (register_resume_created st1 session2 req2 env2 hash2 Hh2).
  cbn [fst snd status].
  set (u2 := <["password" := JStr hash2]> (body req2) : obj).
  assert (u2 !! "username" = Some (JStr name)) as Hu2.
  { unfold u2. by rewrite lookup_insert_ne. }
  assert (usernames (createUser st1 u2 (now env2)).1
          = (usernames st ++ [Some (JStr name); Some (JStr name)])%list)
    as Hnames.
  { rewrite (usernames_createUser st1 u2 (now env2) Hinv1).
    unfold st1. rewrite (usernames_createUser st u1 (now env1) Hinv).
    by rewrite Hu1, Hu2, <- app_assoc. }
  split_and!; try done.
  - rewrite Hnames. intros Hnd. apply NoDup_app in Hnd as (_ & _ & Hnd).
    apply NoDup_cons in Hnd as [Hnotin _]. apply Hnotin, list_elem_of_here.
  - unfold api_register. rewrite Hn2. unfold st1.
    by rewrite (createUser_found st u1 (now env1) name Hinv Hu1 Hfree).
Qed.

End RegistrationGuards.

(** ** Login, continued *)

(** [createUser] stamps the key; a profile patch without an [id]
    property and the operations on news and projects keep it. *)
Lemma ids_agree_new : ids_agree new_MemStorage.
Proof. intros k user H. discriminate. Qed.

Lemma ids_agree_createUser st insertUser now :
  ids_agree st -> ids_agree (createUser st insertUser now).1.
Proof.
  intros Hagree k user Hget.
  destruct (decide (k = userId st)) as [->|Hne].
  - rewrite createUser_stored in Hget. injection Hget as <-.
    apply createUser_id.
  - rewrite createUser_others in Hget by done. by apply Hagree.
Qed.

Lemma ids_agree_updateUserProfile st id (profile : obj) :
  profile !! "id" = None ->
  ids_agree st -> ids_agree (updateUserProfile st id profile).1.
Proof.
  intros Hid Hagree k user. unfold updateUserProfile.
  destruct (JsMap.get id (users st)) as [old|] eqn:Hold; [|apply Hagree].
  unfold getUser. simpl. destruct (decide (id = k)) as [->|Hne].
  - rewrite get_set_eq. intros [= <-].
    rewrite lookup_union_r by done. by apply Hagree.
  - rewrite get_set_ne by done. apply Hagree.
Qed.

Section LoginMore.
Context {E : External}.

(** The two ways a login ends: the account was found and verified and
    the session could be written, or the answer is not 200 and nothing
    changed. *)
Lemma api_login_outcome st session req :
  (exists username password user id,
     credential req "username" = Some username /\
     credential req "password" = Some password /\
     (truthy username = true /\ truthy password = true) /\
     getUserByUsername st (Some username) = Some user /\
     comparePasswords password (user !! "password") = Ok true /\
     user !! "id" = Some id /\
     api_login st session req
       = (st, Some id, {| status := 200; payload := PJson (safeUser user) |})) \/
  (status (api_login st session req).2 <> 200 /\
   (api_login st session req).1 = (st, session)).
Proof.
  unfold api_login, passport_authenticate, localStrategy.
  destruct (credential req "username") as [username|] eqn:Hu; [|by right].
  destruct (credential req "password") as [password|] eqn:Hp; [|by right].
  destruct (truthy username && truthy password) eqn:Ht; [|by right].
  apply andb_true_iff in Ht as [Htu Htp].
  destruct (getUserByUsername st (Some username)) as [user|] eqn:Hfind;
    [|by right].
  destruct (comparePasswords password (user !! "password")) as [[|]|] eqn:Hcmp;
    [|by right..].
  unfold serializeUser.
  destruct (user !! "id") as [v|] eqn:Hid; [|by right].
  destruct (truthy v || strict_eq v (JNum 0)); [|by right].
  left. exists username, password, user, v. by split_and!.
Qed.


(** X8: in a store with distinct keys whose accounts carry their key as
    id, the session that a successful login opens resolves to the
    account that logged in. *)
Theorem login_session_resolves st session req :
  store_inv st ->
  ids_agree st ->
  status (api_login st session req).2 = 200 ->
  exists user,
    payload (api_login st session req).2 = PJson (safeUser user) /\
    deserializeUser st (api_login st session req).1.2 = Some user.
Proof.
  intros ((_ & Hnd & _) & _) Hagree Hok.
  destruct (api_login_outcome st session req)
    as [(username & password & user & id & _ & _ & _ & Hfind & _ & Hid & Hout)
       |[Hfail _]]; [|done].
  rewrite Hout. exists user. split; [done|]. cbn [fst snd].
  unfold getUserByUsername in Hfind. apply find_some in Hfind as [Hin _].
  apply list_elem_of_In in Hin.
  destruct (values_get _ _ Hnd Hin) as [k Hk].
  rewrite (Hagree k user Hk) in Hid. injection Hid as <-.
  unfold deserializeUser. simpl. exact Hk.
Qed.

End LoginMore.

(** ** Routes, as a whole *)

Lemma has_of_get (m : list (Z * obj)) (k : Z) (v : obj) :
  JsMap.get k m = Some v -> JsMap.has k m = true.
Proof. intros H. unfold JsMap.has. by rewrite H. Qed.

(** Closes [error_keeps st out] once [out] is a visible pair. *)
Ltac keeps := intros Hstatus; cbn in Hstatus |- *; first [ done | lia ].

Section Routes.
Context {E : External}.

(** X9: no endpoint changes the store and answers with an error: on
    every route, an answer with status 400 or above comes with the
    store as it was before the request. *)
Theorem errors_leave_store st session req env :
  error_keeps st ((api_register st session req env).1.1,
                  (api_register st session req env).2) /\
  error_keeps st ((api_login st session req).1.1, (api_login st session req).2) /\
  error_keeps st (api_user st req) /\
  error_keeps st (api_upload st req env) /\
  error_keeps st (api_users st req) /\
  error_keeps st (api_users_profile st req) /\
  error_keeps st (api_news_get st req) /\
  error_keeps st (api_news_create st req env) /\
  error_keeps st (api_news_update st req env) /\
  error_keeps st (api_news_delete st req) /\
  error_keeps st (api_projects_get st req) /\
  error_keeps st (api_projects_create st req env) /\
  error_keeps st (api_projects_update st req env) /\
  error_keeps st (api_projects_delete st req).
Proof.
  split_and!.
  - unfold api_register.
    destruct (getUserByUsername st (body req !! "username")); [keeps|].
    destruct (hashPassword (body req !! "password") env) as [hash|]; [|keeps].
    pose proof (serializeUser_created st (<["password" := JStr hash]> (body req))
                  (now env)) as Hs.
    destruct (createUser _ _ _) as [st' user]. cbn [snd] in Hs. rewrite Hs. keeps.
  - destruct (api_login_outcome st session req) as [(? & ? & ? & ? & H)|[_ ->]];
      [|keeps].
    destruct H as (_ & _ & _ & _ & _ & _ & ->). keeps.
  - unfold api_user. case_match; keeps.
  - unfold api_upload. repeat case_match; keeps.
  - unfold api_users. case_match; keeps.
  - unfold api_users_profile.
    destruct (isAuthenticated req); [keeps|].
    destruct (validateRequest updateUserProfileSchema req); [keeps|].
    destruct (as_key _) as [id|]; [|keeps].
    unfold updateUserProfile. destruct (JsMap.get id (users st)); keeps.
  - unfold api_news_get. repeat case_match; keeps.
  - unfold api_news_create. repeat case_match; keeps.
  - unfold api_news_update.
    repeat case_match; try keeps.
    all: match goal with H : updateNews _ _ _ _ = _ |- _ =>
           unfold updateNews in H; repeat case_match; simplify_eq end.
    all: keeps.
  - unfold api_news_delete.
    destruct (isAuthenticated req); [keeps|].
    destruct (params_id req) as [id|]; [|keeps].
    destruct (getNewsById st id) eqn:Hitem; [|keeps].
    destruct (_ && _); [keeps|].
    unfold deleteNews. rewrite (has_of_get _ _ _ Hitem). keeps.
  - unfold api_projects_get. repeat case_match; keeps.
  - unfold api_projects_create. repeat case_match; keeps.
  - unfold api_projects_update.
    repeat case_match; try keeps.
    all: match goal with H : updateProject _ _ _ _ = _ |- _ =>
           unfold updateProject in H; repeat case_match; simplify_eq end.
    all: keeps.
  - unfold api_projects_delete.
    destruct (isAuthenticated req); [keeps|].
    destruct (params_id req) as [id|]; [|keeps].
    destruct (getProjectById st id) eqn:Hitem; [|keeps].
    destruct (_ && _); [keeps|].
    unfold deleteProject. rewrite (has_of_get _ _ _ Hitem). keeps.
Qed.

(** X10: a caller that is not authenticated gets 401 and changes
    nothing on every route but the public ones (register, login,
    logout, reading news and projects): the current user, the upload,
    the users list, the profile update, and creating, updating and
    deleting news and projects. *)
Theorem unauthenticated_is_refused st req env :
  req_user req = None ->
  api_user st req = (st, message 401 "Не авторизован") /\
  Forall (fun out => out = (st, message 401 "Необходима авторизация"))
    [ api_upload st req env; api_users st req; api_users_profile st req;
      api_news_create st req env; api_news_update st req env;
      api_news_delete st req;
      api_projects_create st req env; api_projects_update st req env;
      api_projects_delete st req ].
Proof.
  intros Hnone. split.
  - unfold api_user. by rewrite Hnone.
  - repeat apply Forall_cons_2; try apply Forall_nil_2.
    all: unfold api_upload, api_users, api_users_profile, api_news_create,
           api_news_update, api_news_delete, api_projects_create,
           api_projects_update, api_projects_delete, isAdmin, isAuthenticated.
    all: by rewrite Hnone.
Qed.

(** X11: the reading routes, the login, the logout and the upload never
    change the store, whoever calls them and whatever they answer. *)
Theorem reads_leave_store st session req env :
  (api_news_list st req).1 = st /\
  (api_news_get st req).1 = st /\
  (api_projects_list st req).1 = st /\
  (api_projects_get st req).1 = st /\
  (api_user st req).1 = st /\
  (api_users st req).1 = st /\
  (api_upload st req env).1 = st /\
  (api_login st session req).1.1 = st /\
  (api_logout st session req).1.1 = st.
Proof.
  split_and!; try done.
  - unfold api_news_get. by repeat case_match.
  - unfold api_projects_get. by repeat case_match.
  - unfold api_user. by case_match.
  - unfold api_users. by case_match.
  - unfold api_upload. by repeat case_match.
  - destruct (api_login_outcome st session req) as [(? & ? & ? & ? & H)|[_ ->]];
      [|done].
    by destruct H as (_ & _ & _ & _ & _ & _ & ->).
Qed.

End Routes.

(** ** News and projects, continued *)

Lemma createNews_differ_overwritten st i1 i2 now (k : string) :
  k = "id" \/ k = "createdAt" \/ k = "updatedAt" ->
  differ_only_in k i1 i2 ->
  createNews st i1 now = createNews st i2 now.
Proof.
  intros Hk Hd.
  assert (forall j : string,
            j <> "id" -> j <> "createdAt" -> j <> "updatedAt" ->
            i1 !! j = i2 !! j) as Hrest.
  { intros j ? ? ?. apply (differ_only_in_lookup k); [done|].
    intros ->. destruct Hk as [?|[?|?]]; done. }
  assert ((createNews st i1 now).2 = (createNews st i2 now).2) as Hitem.
  { apply map_eq. intros j. simpl. rewrite (Hrest "files") by done.
    rewrite !lookup_insert. repeat case_decide; try done.
    apply Hrest; congruence. }
  unfold createNews in *. simpl in Hitem. by rewrite Hitem.
Qed.

Lemma createProject_differ_overwritten st i1 i2 now (k : string) :
  k = "id" \/ k = "createdAt" \/ k = "updatedAt" ->
  differ_only_in k i1 i2 ->
  createProject st i1 now = createProject st i2 now.
Proof.
  intros Hk Hd.
  assert (forall j : string,
            j <> "id" -> j <> "createdAt" -> j <> "updatedAt" ->
            i1 !! j = i2 !! j) as Hrest.
  { intros j ? ? ?. apply (differ_only_in_lookup k); [done|].
    intros ->. destruct Hk as [?|[?|?]]; done. }
  assert ((createProject st i1 now).2 = (createProject st i2 now).2) as Hitem.
  { apply map_eq. intros j. simpl.
    rewrite (Hrest "files"), (Hrest "url"), (Hrest "imageUrl") by done.
    rewrite !lookup_insert. repeat case_decide; try done.
    apply Hrest; congruence. }
  unfold createProject in *. simpl in Hitem. by rewrite Hitem.
Qed.

Lemma differ_only_in_set_prop (k j : string) (v : option jsval) (b1 b2 : obj) :
  differ_only_in k b1 b2 ->
  differ_only_in k (set_prop j v b1) (set_prop j v b2).
Proof.
  intros Hd. destruct v as [v|]; simpl; [by apply differ_only_in_insert|].
  unfold differ_only_in. apply map_eq. intros i.
  destruct (decide (k = i)) as [->|Hki]; [by rewrite !lookup_delete_eq|].
  rewrite !(lookup_delete_ne _ k) by done.
  destruct (decide (j = i)) as [->|Hji]; [by rewrite !lookup_delete_eq|].
  rewrite !lookup_delete_ne by done. by apply (differ_only_in_lookup k).
Qed.

Lemma createNews_list st newsItem now :
  store_inv st ->
  getAllNews (createNews st newsItem now).1
  = (getAllNews st ++ [(createNews st newsItem now).2])%list.
Proof.
  intros (_ & Hn & _). unfold getAllNews. simpl.
  apply values_set_fresh. by apply table_inv_fresh.
Qed.

Lemma createProject_list st projectItem now :
  store_inv st ->
  getAllProjects (createProject st projectItem now).1
  = (getAllProjects st ++ [(createProject st projectItem now).2])%list.
Proof.
  intros (_ & _ & Hp). unfold getAllProjects. simpl.
  apply values_set_fresh. by apply table_inv_fresh.
Qed.

Section Resources.
Context {E : External}.

(** X12: a news item, respectively a project, that an administrator
    created is what reading it by its new identifier answers with, it is
    the last entry of the list, and the entries that were there are
    unchanged; accounts are not touched. *)
Theorem create_then_read st req env user :
  store_inv st ->
  req_user req = Some user ->
  user !! "role" = Some (JStr "admin") ->
  (zod_accepts insertNewsSchema (body req) = true ->
   exists st' created,
     api_news_create st req env
       = (st', {| status := 201; payload := PJson created |}) /\
     (forall req', params_id req' = Some (newsId st) ->
        api_news_get st' req' = (st', {| status := 200; payload := PJson created |})) /\
     (api_news_list st' req).2
       = {| status := 200; payload := PList (getAllNews st ++ [created]) |} /\
     (forall id, id <> newsId st -> getNewsById st' id = getNewsById st id) /\
     users st' = users st /\ projectItems st' = projectItems st) /\
  (zod_accepts insertProjectSchema (body req) = true ->
   exists st' created,
     api_projects_create st req env
       = (st', {| status := 201; payload := PJson created |}) /\
     (forall req', params_id req' = Some (projectId st) ->
        api_projects_get st' req'
        = (st', {| status := 200; payload := PJson created |})) /\
     (api_projects_list st' req).2
       = {| status := 200; payload := PList (getAllProjects st ++ [created]) |} /\
     (forall id, id <> projectId st ->
        getProjectById st' id = getProjectById st id) /\
     users st' = users st /\ newsItems st' = newsItems st).
Proof.
  intros Hinv Hu Hrole. split; intros Hok.
  - eexists _, _. split_and!.
    + by apply api_news_create_admin.
    + intros req' Hid. unfold api_news_get. by rewrite Hid, createNews_stored.
    + unfold api_news_list. cbn [snd]. by rewrite createNews_list.
    + intros id Hne. unfold getNewsById. simpl. by apply get_set_ne.
    + done.
    + done.
  - eexists _, _. split_and!.
    + by apply api_projects_create_admin.
    + intros req' Hid. unfold api_projects_get.
      by rewrite Hid, createProject_stored.
    + unfold api_projects_list. cbn [snd]. by rewrite createProject_list.
    + intros id Hne. unfold getProjectById. simpl. by apply get_set_ne.
    + done.
    + done.
Qed.

(** X13: the identifier and the two timestamps of a created news item
    or project are the server's: two creation requests of one caller
    that differ only in id, in createdAt or in updatedAt, and that the
    schema treats alike, have the same outcome. *)
Theorem creation_ignores_client_fields st req1 req2 env (k : string) :
  k = "id" \/ k = "createdAt" \/ k = "updatedAt" ->
  req_user req1 = req_user req2 ->
  differ_only_in k (body req1) (body req2) ->
  (zod_accepts insertNewsSchema (body req1)
   = zod_accepts insertNewsSchema (body req2) ->
   zod_errors insertNewsSchema (body req1)
   = zod_errors insertNewsSchema (body req2) ->
   api_news_create st req1 env = api_news_create st req2 env) /\
  (zod_accepts insertProjectSchema (body req1)
   = zod_accepts insertProjectSchema (body req2) ->
   zod_errors insertProjectSchema (body req1)
   = zod_errors insertProjectSchema (body req2) ->
   api_projects_create st req1 env = api_projects_create st req2 env).
Proof.
  intros Hk Huser Hd. split; intros Hacc Herr.
  - unfold api_news_create, isAdmin, validateRequest.
    rewrite Huser, Hacc, Herr.
    destruct (req_user req2) as [user|]; [|done]. cbn [from_option].
    destruct (negb _); [done|].
    destruct (zod_accepts insertNewsSchema (body req2)); [|done].
    by rewrite (createNews_differ_overwritten st _ _ (now env) k Hk
                  (differ_only_in_set_prop k "userId" (user !! "id") _ _ Hd)).
  - unfold api_projects_create, isAdmin, validateRequest.
    rewrite Huser, Hacc, Herr.
    destruct (req_user req2) as [user|]; [|done]. cbn [from_option].
    destruct (negb _); [done|].
    destruct (zod_accepts insertProjectSchema (body req2)); [|done].
    by rewrite (createProject_differ_overwritten st _ _ (now env) k Hk
                  (differ_only_in_set_prop k "userId" (user !! "id") _ _ Hd)).
Qed.

End Resources.

(** X14: an allowed delete of a news item, respectively of a project,
    answers 204; afterwards the identifier finds nothing, every other
    entry, the accounts and the other table are as before, and the
    same request once more is answered 404 and changes nothing. *)
Theorem delete_then_gone st req identity id :
  store_inv st ->
  req_user req = Some identity ->
  params_id req = Some id ->
  (forall newsItem,
     getNewsById st id = Some newsItem ->
     requireOwnerOrAdmin identity (newsItem !! "userId") = true ->
     exists st',
       api_news_delete st req = (st', {| status := 204; payload := PNone |}) /\
       getNewsById st' id = None /\
       (forall j, j <> id -> getNewsById st' j = getNewsById st j) /\
       users st' = users st /\ projectItems st' = projectItems st /\
       api_news_delete st' req = (st', message 404 "Новость не найдена")) /\
  (forall project,
     getProjectById st id = Some project ->
     requireOwnerOrAdmin identity (project !! "userId") = true ->
     exists st',
       api_projects_delete st req
         = (st', {| status := 204; payload := PNone |}) /\
       getProjectById st' id = None /\
       (forall j, j <> id -> getProjectById st' j = getProjectById st j) /\
       users st' = users st /\ newsItems st' = newsItems st /\
       api_projects_delete st' req = (st', message 404 "Проект не найден")).
Proof.
  intros (_ & (_ & Hnn & _) & (_ & Hnp & _)) Hu Hid. split.
  - intros item Hitem Hallow.
    assert (getNewsById (deleteNews st id).1 id = None) as Hgone
      by (by apply get_remove_eq).
    exists (deleteNews st id).1. split_and!; try done.
    + unfold api_news_delete, isAuthenticated. rewrite Hu, Hid, Hitem.
      cbn [default from_option Datatypes.id].
      rewrite handler_test_is_rule, Hallow. cbn [negb].
      unfold deleteNews. by rewrite (has_of_get _ _ _ Hitem).
    + intros j Hj. unfold getNewsById. simpl. by apply get_remove_ne.
    + unfold api_news_delete, isAuthenticated. by rewrite Hu, Hid, Hgone.
  - intros item Hitem Hallow.
    assert (getProjectById (deleteProject st id).1 id = None) as Hgone
      by (by apply get_remove_eq).
    exists (deleteProject st id).1. split_and!; try done.
    + unfold api_projects_delete, isAuthenticated. rewrite Hu, Hid, Hitem.
      cbn [default from_option Datatypes.id].
      rewrite handler_test_is_rule, Hallow. cbn [negb].
      unfold deleteProject. by rewrite (has_of_get _ _ _ Hitem).
    + intros j Hj. unfold getProjectById. simpl. by apply get_remove_ne.
    + unfold api_projects_delete, isAuthenticated. by rewrite Hu, Hid, Hgone.
Qed.

(** X15: an allowed update of a news item, respectively of a project,
    answers 200 with the stored result: [updatedAt] is the instant of
    the request, every other property the body has is taken from it
    (the owner's [userId] among them), the remaining properties are
    those of the item, and the entry keeps its place; other entries,
    the accounts and the other table are as before. *)
Theorem update_applies_body st req env identity id :
  req_user req = Some identity ->
  params_id req = Some id ->
  (forall newsItem,
     getNewsById st id = Some newsItem ->
     requireOwnerOrAdmin identity (newsItem !! "userId") = true ->
     exists st' updated,
       api_news_update st req env
         = (st', {| status := 200; payload := PJson updated |}) /\
       getNewsById st' id = Some updated /\
       updated !! "updatedAt" = Some (JDate (now env)) /\
       (forall k v, k <> "updatedAt" -> body req !! k = Some v ->
                    updated !! k = Some v) /\
       (forall k, k <> "updatedAt" -> body req !! k = None ->
                  updated !! k = newsItem !! k) /\
       (forall j, j <> id -> getNewsById st' j = getNewsById st j) /\
       JsMap.keys (newsItems st') = JsMap.keys (newsItems st) /\
       users st' = users st /\ projectItems st' = projectItems st) /\
  (forall project,
     getProjectById st id = Some project ->
     requireOwnerOrAdmin identity (project !! "userId") = true ->
     exists st' updated,
       api_projects_update st req env
         = (st', {| status := 200; payload := PJson updated |}) /\
       getProjectById st' id = Some updated /\
       updated !! "updatedAt" = Some (JDate (now env)) /\
       (forall k v, k <> "updatedAt" -> body req !! k = Some v ->
                    updated !! k = Some v) /\
       (forall k, k <> "updatedAt" -> body req !! k = None ->
                  updated !! k = project !! k) /\
       (forall j, j <> id -> getProjectById st' j = getProjectById st j) /\
       JsMap.keys (projectItems st') = JsMap.keys (projectItems st) /\
       users st' = users st /\ newsItems st' = newsItems st).
Proof.
  intros Hu Hid. split.
  - intros item Hitem Hallow.
    exists (updateNews st id (body req) (now env)).1,
           (<["updatedAt" := JDate (now env)]> (body req ∪ item)).
    unfold api_news_update, isAuthenticated. rewrite Hu, Hid, Hitem.
    cbn [default from_option Datatypes.id].
    rewrite handler_test_is_rule, Hallow. cbn [negb].
    unfold updateNews, getNewsById in *. rewrite Hitem. simpl.
    split_and!; try done.
    + apply get_set_eq.
    + apply lookup_insert_eq.
    + intros k v Hk Hb. rewrite lookup_insert_ne by done.
      by apply lookup_union_Some_l.
    + intros k Hk Hb. rewrite lookup_insert_ne by done.
      by apply lookup_union_r.
    + intros j Hj. by apply get_set_ne.
    + apply keys_set_present. by eapply get_Some_keys.
  - intros item Hitem Hallow.
    exists (updateProject st id (body req) (now env)).1,
           (<["updatedAt" := JDate (now env)]> (body req ∪ item)).
    unfold api_projects_update, isAuthenticated. rewrite Hu, Hid, Hitem.
    cbn [default from_option Datatypes.id].
    rewrite handler_test_is_rule, Hallow. cbn [negb].
    unfold updateProject, getProjectById in *. rewrite Hitem. simpl.
    split_and!; try done.
    + apply get_set_eq.
    + apply lookup_insert_eq.
    + intros k v Hk Hb. rewrite lookup_insert_ne by done.
      by apply lookup_union_Some_l.
    + intros k Hk Hb. rewrite lookup_insert_ne by done.
      by apply lookup_union_r.
    + intros j Hj. by apply get_set_ne.
    + apply keys_set_present. by eapply get_Some_keys.
Qed.

(** X16: the routes that name a news item or a project answer 400 when
    the identifier in the path is not a number and 404 when no entry
    has it (for update and delete: to an authenticated caller), in both
    cases without touching the store. *)
Theorem bad_identifier_is_refused st req env identity :
  req_user req = Some identity ->
  (params_id req = None ->
   api_news_get st req = (st, message 400 "Неверный ID новости") /\
   api_news_update st req env = (st, message 400 "Неверный ID новости") /\
   api_news_delete st req = (st, message 400 "Неверный ID новости") /\
   api_projects_get st req = (st, message 400 "Неверный ID проекта") /\
   api_projects_update st req env = (st, message 400 "Неверный ID проекта") /\
   api_projects_delete st req = (st, message 400 "Неверный ID проекта")) /\
  (forall id, params_id req = Some id ->
     (getNewsById st id = None ->
      api_news_get st req = (st, message 404 "Новость не найдена") /\
      api_news_update st req env = (st, message 404 "Новость не найдена") /\
      api_news_delete st req = (st, message 404 "Новость не найдена")) /\
     (getProjectById st id = None ->
      api_projects_get st req = (st, message 404 "Проект не найден") /\
      api_projects_update st req env = (st, message 404 "Проект не найден") /\
      api_projects_delete st req = (st, message 404 "Проект не найден"))).
Proof.
  intros Hu.
  unfold api_news_get, api_news_update, api_news_delete, api_projects_get,
    api_projects_update, api_projects_delete, isAuthenticated.
  rewrite Hu. split.
  - intros ->. by split_and!.
  - intros id ->. split; intros ->; by split_and!.
Qed.

(** ** Profile update, continued *)

Section ProfileMore.
Context {E : External}.

(** X17: the profile endpoint applies the whole body: for an
    authenticated caller whose id is the key of a stored account and a
    body that passes the schema, the stored account becomes the body
    laid over the account, so that every property of the body, of
    whatever name, is the account's afterwards; the answer is 200 with
    the new account without its password. *)
Theorem profile_update_applies_body st req identity id stored :
  req_user req = Some identity ->
  identity !! "id" = Some (JNum id) ->
  getUser st id = Some stored ->
  zod_accepts updateUserProfileSchema (body req) = true ->
  exists st' updated,
    api_users_profile st req
      = (st', {| status := 200; payload := PJson (safeUser updated) |}) /\
    getUser st' id = Some updated /\
    (forall k v, body req !! k = Some v -> updated !! k = Some v) /\
    (forall k, body req !! k = None -> updated !! k = stored !! k) /\
    (forall j, j <> id -> getUser st' j = getUser st j).
Proof.
  intros Hu Hid Hstored Hok.
  exists (updateUserProfile st id (body req)).1, (body req ∪ stored).
  unfold api_users_profile, isAuthenticated, validateRequest.
  rewrite Hu, Hok. cbn [from_option]. rewrite Hid. cbn [as_key].
  unfold updateUserProfile, getUser in *. rewrite Hstored. simpl.
  split_and!; try done.
  - apply get_set_eq.
  - intros k v Hb. by apply lookup_union_Some_l.
  - intros k Hb. by apply lookup_union_r.
  - intros j Hj. by apply get_set_ne.
Qed.

(** X18: the profile endpoint answers 200 only to a body whose
    username, if it has one, is a string whose length, as JavaScript
    counts it in UTF-16 code units, is from 3 to 50, whose bio, if it
    has one, is a string of length at most 500, and whose avatar, if it
    has one, is a string. *)
Theorem profile_update_is_validated st req :
  status (api_users_profile st req).2 = 200 ->
  (forall v, body req !! "username" = Some v ->
     exists s, v = JStr s /\
               (3 <= js_length s)%nat /\ (js_length s <= 50)%nat) /\
  (forall v, body req !! "bio" = Some v ->
     exists s, v = JStr s /\ (js_length s <= 500)%nat) /\
  (forall v, body req !! "avatar" = Some v -> exists s, v = JStr s).
Proof.
  unfold api_users_profile, validateRequest.
  destruct (isAuthenticated req) as [r|] eqn:Hauth.
  { unfold isAuthenticated in Hauth. destruct (req_user req); [done|].
    injection Hauth as <-. discriminate. }
  cbn [zod_accepts updateUserProfileSchema].
  destruct (updateUserProfileSchema_accepts (body req)) eqn:Hok;
    [intros _ | discriminate].
  unfold updateUserProfileSchema_accepts in Hok.
  apply andb_true_iff in Hok as [Hok Hbio].
  apply andb_true_iff in Hok as [Hname Havatar].
  split_and!; intros v Hv.
  - rewrite Hv in Hname. destruct v; try discriminate. cbn [optional_string] in Hname.
    apply andb_true_iff in Hname as [Hlo Hhi].
    apply Nat.leb_le in Hlo, Hhi. eauto.
  - rewrite Hv in Hbio. destruct v; try discriminate. cbn [optional_string] in Hbio.
    apply andb_true_iff in Hbio as [_ Hbio].
    apply Nat.leb_le in Hbio. eauto.
  - rewrite Hv in Havatar. destruct v; try discriminate. eauto.
Qed.

End ProfileMore.

(** ** Invariants along the routes *)

Section RouteInvariants.
Context {E : External}.

Lemma store_inv_api_register st session req env :
  store_inv st -> store_inv (api_register st session req env).1.1.
Proof.
  intros Hinv. unfold api_register.
  destruct (getUserByUsername st (body req !! "username")); [done|].
  destruct (hashPassword (body req !! "password") env) as [hash|]; [|done].
  pose proof (store_inv_createUser st (<["password" := JStr hash]> (body req))
                (now env) Hinv) as Hinv'.
  destruct (createUser _ _ _) as [st' user]. by destruct (serializeUser user).
Qed.

Lemma ids_agree_api_register st session req env :
  ids_agree st -> ids_agree (api_register st session req env).1.1.
Proof.
  intros Hagree. unfold api_register.
  destruct (getUserByUsername st (body req !! "username")); [done|].
  destruct (hashPassword (body req !! "password") env) as [hash|]; [|done].
  pose proof (ids_agree_createUser st (<["password" := JStr hash]> (body req))
                (now env) Hagree) as Hagree'.
  destruct (createUser _ _ _) as [st' user]. by destruct (serializeUser user).
Qed.

Lemma store_inv_api_users_profile st req :
  store_inv st -> store_inv (api_users_profile st req).1.
Proof.
  intros Hinv. unfold api_users_profile.
  destruct (isAuthenticated req); [done|].
  destruct (validateRequest updateUserProfileSchema req); [done|].
  destruct (as_key _) as [id|]; [|done].
  pose proof (store_inv_updateUserProfile st id (body req) Hinv) as Hinv'.
  destruct (updateUserProfile st id (body req)) as [st' [u|]]; done.
Qed.

(** X19: the table invariant holds along the whole interface: from a
    store whose keys are distinct and below the counters, every route
    leads to such a store. *)
Theorem routes_keep_store_inv st session req env :
  store_inv st ->
  store_inv (api_register st session req env).1.1 /\
  store_inv (api_login st session req).1.1 /\
  store_inv (api_logout st session req).1.1 /\
  Forall (fun out : MemStorage * Response => store_inv out.1)
    [ api_user st req; api_upload st req env; api_users st req;
      api_users_profile st req;
      api_news_list st req; api_news_get st req; api_news_create st req env;
      api_news_update st req env; api_news_delete st req;
      api_projects_list st req; api_projects_get st req;
      api_projects_create st req env; api_projects_update st req env;
      api_projects_delete st req ].
Proof.
  intros Hinv. split_and!.
  - by apply store_inv_api_register.
  - destruct (api_login_outcome st session req) as [(? & ? & ? & ? & H)|[_ ->]];
      [|done].
    by destruct H as (_ & _ & _ & _ & _ & _ & ->).
  - done.
  - repeat apply Forall_cons_2; try apply Forall_nil_2.
    + unfold api_user. by case_match.
    + unfold api_upload. by repeat case_match.
    + unfold api_users. by case_match.
    + by apply store_inv_api_users_profile.
    + done.
    + unfold api_news_get. by repeat case_match.
    + unfold api_news_create. repeat case_match; try done.
      match goal with H : createNews ?s ?i ?t = _ |- _ =>
        pose proof (store_inv_createNews s i t Hinv) as Hi; by rewrite H in Hi end.
    + unfold api_news_update. repeat case_match; try done.
      match goal with H : updateNews ?s ?i ?b ?t = _ |- _ =>
        pose proof (store_inv_updateNews s i b t Hinv) as Hi; by rewrite H in Hi end.
    + unfold api_news_delete. repeat case_match; try done.
      all: match goal with H : deleteNews ?s ?i = _ |- _ =>
        pose proof (store_inv_deleteNews s i Hinv) as Hi; by rewrite H in Hi end.
    + done.
    + unfold api_projects_get. by repeat case_match.
    + unfold api_projects_create. repeat case_match; try done.
      match goal with H : createProject ?s ?i ?t = _ |- _ =>
        pose proof (store_inv_createProject s i t Hinv) as Hi; by rewrite H in Hi end.
    + unfold api_projects_update. repeat case_match; try done.
      match goal with H : updateProject ?s ?i ?b ?t = _ |- _ =>
        pose proof (store_inv_updateProject s i b t Hinv) as Hi; by rewrite H in Hi end.
    + unfold api_projects_delete. repeat case_match; try done.
      all: match goal with H : deleteProject ?s ?i = _ |- _ =>
        pose proof (store_inv_deleteProject s i Hinv) as Hi; by rewrite H in Hi end.
Qed.

(** X20: every account carries its key as its id along registrations
    and along profile updates whose body has no id property. *)
Theorem ids_agree_kept st session req env :
  ids_agree st ->
  ids_agree (api_register st session req env).1.1 /\
  (body req !! "id" = None -> ids_agree (api_users_profile st req).1).
Proof.
  intros Hagree. split; [by apply ids_agree_api_register|].
  intros Hid. unfold api_users_profile.
  destruct (isAuthenticated req); [done|].
  destruct (validateRequest updateUserProfileSchema req); [done|].
  destruct (as_key _) as [id|]; [|done].
  pose proof (ids_agree_updateUserProfile st id (body req) Hid Hagree) as Hagree'.
  destruct (updateUserProfile st id (body req)) as [st' [u|]]; done.
Qed.

End RouteInvariants.

(** * The further properties on concrete requests *)

Lemma store_inv_store_alice : store_inv store_alice.
Proof. apply (store_inv_api_register (E := plain_external)), store_inv_new. Qed.

Lemma store_inv_store_alice_bob : store_inv store_alice_bob.
Proof.
  apply (store_inv_api_register (E := plain_external)), store_inv_store_alice.
Qed.

Lemma store_inv_site_store : store_inv site_store.
Proof.
  apply store_inv_createProject, store_inv_createNews, store_inv_createNews.
  apply (store_inv_api_register (E := plain_external)), store_inv_store_alice_bob.
Qed.

Lemma ids_agree_store_alice : ids_agree store_alice.
Proof. apply (ids_agree_api_register (E := plain_external)), ids_agree_new. Qed.


Lemma register_session_resolves_witness :
  getUserByUsername new_MemStorage (body alice_request !! "username") = None /\
  exists st' session' user,
    api_register (E := plain_external) new_MemStorage None alice_request env0
      = (st', session', {| status := 201; payload := PJson (safeUser user) |}) /\
    deserializeUser st' session' = Some user.
Proof.
  assert (getUserByUsername new_MemStorage (body alice_request !! "username") = None)
    as Hfree by computes.
  assert (hashPassword (E := plain_external) (body alice_request !! "password") env0
            = Ok "$2a$10$abcdefghijklmnopqrstuusecret1") as Hhash by computes.
  destruct (register_session_resolves (E := plain_external) new_MemStorage None
              alice_request env0 _ Hfree Hhash)
    as (st' & session' & user & Hreg & Hres & _).
  split; [exact Hfree |]. exists st', session', user. by split.
Defined.


Lemma register_ignores_client_fields_witness :
  differ_only_in "id" alice_with_id alice_body /\
  api_register (E := plain_external) new_MemStorage None
    (anonymous alice_with_id) env0
  = api_register (E := plain_external) new_MemStorage None alice_request env0.
Proof.
  assert (differ_only_in "id" alice_with_id alice_body) as Hd
    by (unfold differ_only_in; computes).
  split; [exact Hd |].
  apply (register_ignores_client_fields (E := plain_external) new_MemStorage
           None (anonymous alice_with_id) alice_request env0 "id");
    [apply list_elem_of_here | exact Hd].
Defined.

Lemma register_overlap_duplicates_username_witness :
  getUserByUsername new_MemStorage (Some (JStr "alice")) = None /\
  status (register_resume (E := plain_external) new_MemStorage None
            alice_request env0).2 = 201 /\
  status (register_resume (E := plain_external)
            (register_resume (E := plain_external) new_MemStorage None
               alice_request env0).1.1
            None alice_request env0).2 = 201 /\
  usernames (register_resume (E := plain_external)
               (register_resume (E := plain_external) new_MemStorage None
                  alice_request env0).1.1
               None alice_request env0).1.1
    = [Some (JStr "alice"); Some (JStr "alice")].
Proof.
  assert (getUserByUsername new_MemStorage (Some (JStr "alice")) = None)
    as Hfree by computes.
  assert (hashPassword (E := plain_external)
            (body alice_request !! "password") env0
          = Ok (salt env0 +:+ "secret1")) as Hhash by computes.
  destruct (register_overlap_duplicates_username (E := plain_external)
              new_MemStorage None None alice_request alice_request env0 env0
              "alice" _ _ store_inv_new eq_refl eq_refl Hfree Hhash Hhash)
    as (_ & _ & H1 & H2 & Hnames & _).
  split_and!; [exact Hfree | exact H1 | exact H2 | exact Hnames].
Defined.

(** Credentials in the query string log in as well as those in the
    body, also behind an object in the body. *)
Example login_reads_query_string :
  status (api_login (E := plain_external) store_alice None login_by_query).2
    = 200 /\
  (api_login (E := plain_external) store_alice None login_by_query).1.2
    = Some (JNum 1) /\
  api_login (E := plain_external) store_alice None login_object_in_body
    = api_login (E := plain_external) store_alice None login_by_query.
Proof. split_and!; computes. Qed.

Lemma login_session_resolves_witness :
  status (api_login (E := plain_external) store_alice None alice_request).2 = 200 /\
  exists user,
    payload (api_login (E := plain_external) store_alice None alice_request).2
      = PJson (safeUser user) /\
    deserializeUser store_alice
      (api_login (E := plain_external) store_alice None alice_request).1.2
      = Some user.
Proof.
  assert (status (api_login (E := plain_external) store_alice None
                    alice_request).2 = 200) as Hok by computes.
  split; [exact Hok |].
  exact (login_session_resolves (E := plain_external) store_alice None
           alice_request store_inv_store_alice ids_agree_store_alice Hok).
Defined.

Lemma unauthenticated_is_refused_witness :
  req_user (anonymous (item_of 1)) = None /\
  api_news_create (E := plain_external) site_store (anonymous (item_of 1)) env0
    = (site_store, message 401 "Необходима авторизация").
Proof.
  split; [reflexivity |].
  destruct (unauthenticated_is_refused (E := plain_external) site_store
              (anonymous (item_of 1)) env0 eq_refl) as [_ Hall].
  rewrite Forall_forall in Hall. apply Hall.
  do 3 apply list_elem_of_further. apply list_elem_of_here.
Defined.

Lemma create_then_read_witness :
  req_user eve_posts_as_alice = Some (account site_store 3) /\
  account site_store 3 !! "role" = Some (JStr "admin") /\
  exists st' created,
    api_news_create (E := plain_external) site_store eve_posts_as_alice env0
      = (st', {| status := 201; payload := PJson created |}) /\
    api_news_get st' (caller 2 ∅ (Some 3))
      = (st', {| status := 200; payload := PJson created |}).
Proof.
  assert (req_user eve_posts_as_alice = Some (account site_store 3))
    as Heve by computes.
  assert (account site_store 3 !! "role" = Some (JStr "admin"))
    as Hrole by computes.
  destruct (proj1 (create_then_read (E := plain_external) site_store
                     eve_posts_as_alice env0 _ store_inv_site_store Heve Hrole)
              eq_refl)
    as (st' & created & Hout & Hget & _).
  split_and!; [exact Heve | exact Hrole |].
  exists st', created. split; [exact Hout |]. apply Hget. computes.
Defined.

Lemma creation_ignores_client_fields_witness :
  req_user eve_posts_with_id = req_user eve_posts_as_alice /\
  differ_only_in "id" (body eve_posts_with_id) (body eve_posts_as_alice) /\
  api_news_create (E := plain_external) site_store eve_posts_with_id env0
  = api_news_create (E := plain_external) site_store eve_posts_as_alice env0.
Proof.
  assert (differ_only_in "id" (body eve_posts_with_id) (body eve_posts_as_alice))
    as Hd by (unfold differ_only_in; computes).
  split_and!; [reflexivity | exact Hd |].
  exact (proj1 (creation_ignores_client_fields (E := plain_external) site_store
                  eve_posts_with_id eve_posts_as_alice env0 "id"
                  (or_introl eq_refl) eq_refl Hd) eq_refl eq_refl).
Defined.

Lemma delete_then_gone_witness :
  req_user (caller 1 ∅ (Some 1)) = Some (account site_store 1) /\
  getNewsById site_store 1 = Some first_news /\
  requireOwnerOrAdmin (account site_store 1) (first_news !! "userId") = true /\
  exists st',
    api_news_delete site_store (caller 1 ∅ (Some 1))
      = (st', {| status := 204; payload := PNone |}) /\
    getNewsById st' 1 = None /\
    api_news_delete st' (caller 1 ∅ (Some 1))
      = (st', message 404 "Новость не найдена").
Proof.
  assert (req_user (caller 1 ∅ (Some 1)) = Some (account site_store 1))
    as Halice by computes.
  assert (getNewsById site_store 1 = Some first_news) as Hitem by computes.
  assert (requireOwnerOrAdmin (account site_store 1) (first_news !! "userId") = true)
    as Hown by computes.
  destruct (proj1 (delete_then_gone site_store (caller 1 ∅ (Some 1)) _ 1
                     store_inv_site_store Halice eq_refl) _ Hitem Hown)
    as (st' & Hout & Hgone & _ & _ & _ & Hagain).
  split_and!; [exact Halice | exact Hitem | exact Hown |].
  exists st'. by split_and!.
Defined.

Lemma update_applies_body_witness :
  req_user alice_retitles = Some (account site_store 1) /\
  getNewsById site_store 1 = Some first_news /\
  requireOwnerOrAdmin (account site_store 1) (first_news !! "userId") = true /\
  exists st' updated,
    api_news_update site_store alice_retitles env0
      = (st', {| status := 200; payload := PJson updated |}) /\
    updated !! "title" = Some (JStr "renamed") /\
    updated !! "userId" = Some (JNum 1) /\
    updated !! "updatedAt" = Some (JDate (now env0)).
Proof.
  assert (req_user alice_retitles = Some (account site_store 1))
    as Halice by computes.
  assert (getNewsById site_store 1 = Some first_news) as Hitem by computes.
  assert (requireOwnerOrAdmin (account site_store 1) (first_news !! "userId") = true)
    as Hown by computes.
  destruct (proj1 (update_applies_body site_store alice_retitles env0 _ 1
                     Halice eq_refl) _ Hitem Hown)
    as (st' & updated & Hout & _ & Hat & Hset & Hkept & _).
  split_and!; [exact Halice | exact Hitem | exact Hown |].
  exists st', updated. split_and!; [exact Hout | | | exact Hat].
  - apply Hset; [discriminate | computes].
  - rewrite Hkept; [computes | discriminate | computes].
Defined.

Lemma bad_identifier_is_refused_witness :
  req_user (caller 1 ∅ None) = Some (account site_store 1) /\
  api_news_delete site_store (caller 1 ∅ None)
    = (site_store, message 400 "Неверный ID новости") /\
  req_user (caller 1 ∅ (Some 9)) = Some (account site_store 1) /\
  getProjectById site_store 9 = None /\
  api_projects_update site_store (caller 1 ∅ (Some 9)) env0
    = (site_store, message 404 "Проект не найден").
Proof.
  assert (req_user (caller 1 ∅ None) = Some (account site_store 1))
    as Halice by computes.
  assert (req_user (caller 1 ∅ (Some 9)) = Some (account site_store 1))
    as Halice' by computes.
  assert (getProjectById site_store 9 = None) as Hnone by computes.
  split_and!; [exact Halice | | exact Halice' | exact Hnone |].
  - destruct (proj1 (bad_identifier_is_refused site_store (caller 1 ∅ None)
                       env0 _ Halice) eq_refl) as (_ & _ & Hdel & _).
    exact Hdel.
  - destruct (proj2 (proj2 (bad_identifier_is_refused site_store
                              (caller 1 ∅ (Some 9)) env0 _ Halice') 9 eq_refl)
                Hnone) as (_ & Hupd & _).
    exact Hupd.
Defined.

Lemma profile_update_applies_body_witness :
  req_user bob_takes_role = Some (account store_alice_bob 2) /\
  account store_alice_bob 2 !! "role" = Some (JStr "user") /\
  exists st' updated,
    api_users_profile (E := plain_external) store_alice_bob bob_takes_role
      = (st', {| status := 200; payload := PJson (safeUser updated) |}) /\
    getUser st' 2 = Some updated /\
    updated !! "role" = Some (JStr "admin").
Proof.
  assert (req_user bob_takes_role = Some (account store_alice_bob 2))
    as Hbob by computes.
  assert (account store_alice_bob 2 !! "role" = Some (JStr "user"))
    as Hrole by computes.
  assert (account store_alice_bob 2 !! "id" = Some (JNum 2)) as Hid by computes.
  assert (getUser store_alice_bob 2 = Some (account store_alice_bob 2))
    as Hstored by computes.
  destruct (profile_update_applies_body (E := plain_external) store_alice_bob
              bob_takes_role _ 2 _ Hbob Hid Hstored eq_refl)
    as (st' & updated & Hout & Hget & Hset & _).
  split_and!; [exact Hbob | exact Hrole |].
  exists st', updated. split_and!; [exact Hout | exact Hget |].
  apply Hset. computes.
Defined.

Lemma profile_update_is_validated_witness :
  status (api_users_profile (E := plain_external)
            store_alice_bob bob_takes_long_name).2 = 200 /\
  exists s, body bob_takes_long_name !! "username" = Some (JStr s) /\
            String.length s = 52%nat /\
            (3 <= js_length s)%nat /\ (js_length s <= 50)%nat.
Proof.
  assert (status (api_users_profile (E := plain_external)
                    store_alice_bob bob_takes_long_name).2 = 200)
    as Hok by computes.
  split; [exact Hok |].
  destruct (profile_update_is_validated (E := plain_external) store_alice_bob
              bob_takes_long_name Hok) as (Hname & _).
  destruct (Hname (JStr long_name)) as (s & Hs & Hlo & Hhi); [computes|].
  exists s. split_and!; [| |exact Hlo | exact Hhi].
  - rewrite <- Hs. computes.
  - injection Hs as <-. computes.
Defined.

(** A name of twenty-six Cyrillic letters is within the bounds and
    becomes the username. *)
Example profile_update_accepts_long_name :
  js_length long_name = 26%nat /\
  account (api_users_profile (E := plain_external)
             store_alice_bob bob_takes_long_name).1 2 !! "username"
    = Some (JStr long_name).
Proof. split; computes. Qed.

(** A name of two Cyrillic letters is four bytes long and too short
    for the schema; the endpoint answers 400 and the store stays. *)
Example profile_update_refuses_short_name :
  String.length "аб" = 4%nat /\ js_length "аб" = 2%nat /\
  status (api_users_profile (E := plain_external)
            store_alice_bob bob_takes_short_name).2 = 400 /\
  (api_users_profile (E := plain_external)
     store_alice_bob bob_takes_short_name).1 = store_alice_bob.
Proof. split_and!; computes. Qed.

Lemma routes_keep_store_inv_witness :
  store_inv site_store /\
  store_inv (api_news_delete site_store (caller 1 ∅ (Some 1))).1.
Proof.
  split; [exact store_inv_site_store |].
  destruct (routes_keep_store_inv (E := plain_external) site_store None
              (caller 1 ∅ (Some 1)) env0 store_inv_site_store)
    as (_ & _ & _ & Hall).
  rewrite Forall_forall in Hall.
  apply (Hall (api_news_delete site_store (caller 1 ∅ (Some 1)))).
  do 8 apply list_elem_of_further. apply list_elem_of_here.
Defined.

Lemma ids_agree_kept_witness :
  ids_agree store_alice /\ ids_agree store_alice_bob.
Proof.
  split; [exact ids_agree_store_alice |].
  exact (proj1 (ids_agree_kept (E := plain_external) store_alice None
                  (anonymous bob_body) env0 ids_agree_store_alice)).
Defined.
